(** * Prediction service: validation, scoring and reconciliation

    A shallow embedding of [app.py]: the field verifier
    [verify_data_types], the [/should_search] handler [predict], the
    [/search_result] handler [update] and the [Prediction] table they
    share.

    Python values are an inductive type, dictionaries are finite maps
    with string keys, exceptions are the left branch of a result type,
    and the database is threaded through the handlers as an explicit
    state. *)

From Stdlib Require Import ZArith Ascii String List Bool Lia.
From Stdlib Require Import Floats.PrimFloat.
From stdpp Require Import base option list gmap strings.
Import ListNotations.

Set Warnings "-register-all,-inexact-float".
Local Open Scope string_scope.
Local Open Scope Z_scope.

(** ** Python values as they come out of [request.get_json()] *)

Inductive pyval : Type :=
  | PNone
  | PBool (b : bool)
  | PInt (z : Z)
  | PFloat (f : float)
  | PStr (s : string)
  | PList (l : list pyval)
  | PDict (d : gmap string pyval).

(** The result of Python's [type(v)]. *)
Inductive pytype : Type :=
  | TNone | TBool | TInt | TFloat | TStr | TList | TDict.

#[global] Instance pytype_eq_dec : EqDecision pytype.
Proof. solve_decision. Defined.

Definition type_of (v : pyval) : pytype :=
  match v with
  | PNone => TNone
  | PBool _ => TBool
  | PInt _ => TInt
  | PFloat _ => TFloat
  | PStr _ => TStr
  | PList _ => TList
  | PDict _ => TDict
  end.

(** [str(t)] for a type object, as an f-string prints it. *)
Definition type_repr (t : pytype) : string :=
  match t with
  | TNone => "<class 'NoneType'>"
  | TBool => "<class 'bool'>"
  | TInt => "<class 'int'>"
  | TFloat => "<class 'float'>"
  | TStr => "<class 'str'>"
  | TList => "<class 'list'>"
  | TDict => "<class 'dict'>"
  end.

Fixpoint join_repr (ts : list pytype) : string :=
  match ts with
  | [] => ""
  | [t] => type_repr t
  | t :: rest => type_repr t +:+ ", " +:+ join_repr rest
  end.

(** [str(ts)] for a list of type objects. *)
Definition types_repr (ts : list pytype) : string :=
  "[" +:+ join_repr ts +:+ "]".

(** ** Exceptions and results *)

Inductive exn : Type :=
  | TypeError
  | KeyError (key : string)
  | ValueError
  | OverflowError
  | IntegrityError
  | DoesNotExist
  | BadRequest.

Inductive result (A : Type) : Type :=
  | Ok (a : A)
  | Raise (e : exn).
Arguments Ok {A} a.
Arguments Raise {A} e.

Definition bind {A B} (r : result A) (k : A -> result B) : result B :=
  match r with
  | Ok a => k a
  | Raise e => Raise e
  end.

Notation "x <- r ;; k" := (bind r (fun x => k))
  (at level 100, r at next level, right associativity).

(** ** Membership and subscription on a Python value *)

(** [col in data]: key membership for a dict, element membership for a
    list, substring test for a str; the other kinds are not iterable. *)
Definition py_contains (col : string) (data : pyval) : result bool :=
  match data with
  | PDict d => Ok (bool_decide (is_Some (d !! col)))
  | PList l =>
      Ok (existsb (fun v => match v with
                            | PStr s => bool_decide (s = col)
                            | _ => false
                            end) l)
  | PStr s => Ok (bool_decide (is_Some (String.index 0 col s)))
  | _ => Raise TypeError
  end.

(** [data[col]] with a str subscript. *)
Definition py_getitem (data : pyval) (col : string) : result pyval :=
  match data with
  | PDict d =>
      match d !! col with
      | Some v => Ok v
      | None => Raise (KeyError col)
      end
  | _ => Raise TypeError
  end.

(** ** Field verification *)

Definition expected_types : list (string * list pytype) :=
  [ ("observation_id", [TStr]);
    ("Type", [TStr]);
    ("Date", [TStr]);
    ("Part of a policing operation", [TBool]);
    ("Latitude", [TFloat; TInt]);
    ("Longitude", [TFloat; TInt]);
    ("Gender", [TStr]);
    ("Age range", [TStr]);
    ("Officer-defined ethnicity", [TStr]);
    ("Legislation", [TStr]);
    ("Object of search", [TStr]);
    ("station", [TStr]) ].

Definition type_in (t : pytype) (ts : list pytype) : bool :=
  bool_decide (t ∈ ts).

Definition not_found_msg (col : string) : string :=
  col +:+ " column not found".

Definition wrong_type_msg (col : string) (expected_type : list pytype)
    (actual_type : pytype) : string :=
  col +:+ " column has wrong data type. Expected "
      +:+ types_repr expected_type +:+ ", got " +:+ type_repr actual_type.

(** The dict [{'error': msg}]. *)
Definition error_dict (msg : pyval) : pyval :=
  PDict {[ "error" := msg ]}.

Definition all_correct : pyval := PStr "All data types are correct".

(** The [for col, expected_type in expected_types.items()] loop. *)
Fixpoint verify_loop (tbl : list (string * list pytype)) (data : pyval)
    : result (bool * pyval) :=
  match tbl with
  | [] => Ok (false, all_correct)
  | (col, expected_type) :: rest =>
      present <- py_contains col data ;;
      if negb present then
        Ok (true, error_dict (PStr (not_found_msg col)))
      else
        v <- py_getitem data col ;;
        let actual_type := type_of v in
        if negb (type_in actual_type expected_type) then
          Ok (true, error_dict
                      (PStr (wrong_type_msg col expected_type actual_type)))
        else verify_loop rest data
  end.

Definition verify_data_types (data : pyval) : result (bool * pyval) :=
  verify_loop expected_types data.

(** ** The [Prediction] table *)

(** One row of the table.  [id] is the integer primary key that peewee
    adds to every model; [true_class] is the only nullable column. *)
Record Prediction : Type := mkPrediction {
  id : Z;
  observation_id : string;
  observation : string;
  prediction : float;
  proba : float;
  true_class : option Z
}.

(** The rows of the table, oldest first. *)
Definition Database : Type := list Prediction.

Definition has_id (oid : string) (p : Prediction) : bool :=
  bool_decide (observation_id p = oid).

(** [Prediction.get(Prediction.observation_id == oid)]. *)
Definition get (oid : string) (db : Database) : result Prediction :=
  match find (has_id oid) db with
  | Some p => Ok p
  | None => Raise DoesNotExist
  end.

(** The key the engine hands out to a new row: one more than the largest
    key in the table. *)
Definition next_id (db : Database) : Z :=
  1 + foldr Z.max 0 (map id db).

(** [p.save()] on an instance built by the constructor: an INSERT, which
    the unique index on [observation_id] rejects for a known id. *)
Definition save_new (oid : string) (proba_ prediction_ : float)
    (observation_ : string) (db : Database) : result Database :=
  if existsb (has_id oid) db then Raise IntegrityError
  else Ok (db ++ [mkPrediction (next_id db) oid observation_
                               prediction_ proba_ None])%list.

(** [p.save()] on an instance read from the table: an UPDATE of every
    column of the row whose primary key is [id p]. *)
Definition save_existing (p : Prediction) (db : Database) : Database :=
  map (fun r => if bool_decide (id r = id p) then p else r) db.

(** [DB.rollback()]: the connection commits each statement on its own, so
    a rejected INSERT leaves nothing to undo. *)
Definition rollback (db : Database) : Database := db.

Definition set_true_class (p : Prediction) (tc : option Z) : Prediction :=
  mkPrediction (id p) (observation_id p) (observation p)
               (prediction p) (proba p) tc.

(** [Prediction.select()]: every row, in table order. *)
Definition select (db : Database) : list Prediction := db.

(** ** What the handlers take from outside the module

    The pickled artifact under [model/] and the conversions the libraries
    apply to values of a kind the handlers are not written for. *)
Record Collaborators : Type := mkCollaborators {
  (** the data frame handed to the pipeline *)
  Frame : Type;
  (** [pd.DataFrame([observation], columns=columns).astype(dtypes)] *)
  to_frame : pyval -> result Frame;
  (** [pipeline.predict_proba(obs)[0, 1]] *)
  predict_proba : Frame -> result float;
  (** [pipeline.predict(obs)], read as the number the FloatField stores *)
  pipeline_predict : Frame -> result float;
  (** how a TextField turns a value that is not a str into a key
      ([None] for a comparison no row can satisfy) *)
  text_db_value : pyval -> result (option string);
  (** what an IntegerField and the engine make of a float or a str
      assigned to [true_class]; the table follows the column as it is
      declared, an INTEGER or NULL *)
  int_db_value : pyval -> result (option Z);
  (** [str(v)] for a value that is not a str *)
  py_str : pyval -> string
}.

(** [bool(prediction)]: a number is true unless it equals zero. *)
Definition truthy (f : float) : bool := negb (PrimFloat.eqb f 0%float).

Definition text_value (E : Collaborators) (v : pyval)
    : result (option string) :=
  match v with
  | PStr s => Ok (Some s)
  | _ => text_db_value E v
  end.

(** An int the engine can bind to an INTEGER column: a signed 64-bit
    number.  The driver raises [OverflowError] for any other. *)
Definition int64 (z : Z) : bool :=
  (- 2 ^ 63 <=? z) && (z <? 2 ^ 63).

(** What [p.save()] makes of the value assigned to [true_class], before
    any statement reaches the table. *)
Definition int_value (E : Collaborators) (v : pyval)
    : result (option Z) :=
  match v with
  | PNone => Ok None
  | PBool b => Ok (Some (Z.b2z b))
  | PInt z => if int64 z then Ok (Some z) else Raise OverflowError
  | PList _ | PDict _ => Raise TypeError
  | PFloat _ | PStr _ => int_db_value E v
  end.

(** The text ['{}'.format(v)] puts in place of the braces. *)
Definition format_arg (E : Collaborators) (v : pyval) : string :=
  match v with
  | PStr s => s
  | _ => py_str E v
  end.

Definition dquote : string := String "034"%char "".

Definition already_exists_msg (shown : string) : string :=
  "Observation ID: " +:+ dquote +:+ shown +:+ dquote +:+ " already exists".

Definition does_not_exist_msg (shown : string) : string :=
  "Observation ID: " +:+ dquote +:+ shown +:+ dquote +:+ " does not exist".

Definition malformed_msg : string := "error malformed request".

(** ** The handlers *)

(** A request: the raw body [request.data] and what [request.get_json()]
    makes of it, the parsed document or the exception it raises
    ([BadRequest] for a body that is not JSON). *)
Record request : Type := mkRequest {
  data : string;
  get_json : result pyval
}.

(** Lines 101-108 of [predict]: everything between validation and the
    construction of the row. *)
Definition score (E : Collaborators) (obs_dict : pyval)
    : result (pyval * float * float) :=
  _id <- py_getitem obs_dict "observation_id" ;;
  obs <- to_frame E obs_dict ;;
  proba_ <- predict_proba E obs ;;
  prediction_ <- pipeline_predict E obs ;;
  Ok (_id, proba_, prediction_).

(** [p.save()] inside the [try] of [predict]. *)
Definition save_prediction (E : Collaborators) (_id : pyval)
    (proba_ prediction_ : float) (observation_ : string) (db : Database)
    : result Database :=
  key <- text_value E _id ;;
  match key with
  | Some oid => save_new oid proba_ prediction_ observation_ db
  | None => Raise IntegrityError
  end.

(** The handler of [/should_search].  The first component is what the
    view function returns ([Ok] of the dict given to [jsonify]) or the
    exception that leaves it; [request.get_json()] is called outside any
    [try]. *)
Definition predict (E : Collaborators) (req : request) (db : Database)
    : result pyval * Database :=
  match get_json req with
  | Raise e => (Raise e, db)
  | Ok obs_dict =>
  match verify_data_types obs_dict with
  | Raise e => (Raise e, db)
  | Ok (is_error, error_msg) =>
      if is_error then (Ok (PDict {[ "error" := error_msg ]}), db)
      else
        match score E obs_dict with
        | Raise e => (Raise e, db)
        | Ok (_id, proba_, prediction_) =>
            let outcome := PBool (truthy prediction_) in
            match save_prediction E _id proba_ prediction_ (data req) db with
            | Ok db' => (Ok (PDict {[ "outcome" := outcome ]}), db')
            | Raise IntegrityError =>
                let error_msg := already_exists_msg (format_arg E _id) in
                (Ok (PDict (<[ "error" := PStr error_msg ]>
                              {[ "outcome" := outcome ]})),
                 rollback db)
            | Raise e => (Raise e, db)
            end
        end
  end
  end.

(** The body of the [try] in [update]. *)
Definition update_try (E : Collaborators) (obs : pyval) (db : Database)
    : result (pyval * Database) :=
  oid <- py_getitem obs "observation_id" ;;
  key <- text_value E oid ;;
  p <- match key with
       | Some k => get k db
       | None => Raise DoesNotExist
       end ;;
  outcome <- py_getitem obs "outcome" ;;
  tc <- int_value E outcome ;;
  let p' := set_true_class p tc in
  Ok (PDict (<[ "observation_id" := PStr (observation_id p') ]>
            (<[ "outcome" := outcome ]>
              {[ "predicted_outcome" := PFloat (prediction p') ]})),
      save_existing p' db).

(** The handler of [/search_result]; [request.get_json()] is called
    before the [try]. *)
Definition update (E : Collaborators) (req : request) (db : Database)
    : result pyval * Database :=
  match get_json req with
  | Raise e => (Raise e, db)
  | Ok obs =>
  match update_try E obs db with
  | Ok (response, db') => (Ok response, db')
  | Raise DoesNotExist =>
      match py_getitem obs "id" with
      | Ok shown =>
          (Ok (PDict {[ "error" :=
                 PStr (does_not_exist_msg (format_arg E shown)) ]}), db)
      | Raise e => (Raise e, db)
      end
  | Raise _ => (Ok (PDict {[ "error" := PStr malformed_msg ]}), db)
  end
  end.

(** [model_to_dict(obs)]: one entry per column, the primary key
    included; a NULL [true_class] reads as [None]. *)
Definition model_to_dict (p : Prediction) : pyval :=
  PDict (<[ "id" := PInt (id p) ]>
        (<[ "observation_id" := PStr (observation_id p) ]>
        (<[ "observation" := PStr (observation p) ]>
        (<[ "prediction" := PFloat (prediction p) ]>
        (<[ "proba" := PFloat (proba p) ]>
          {[ "true_class" := match true_class p with
                             | Some z => PInt z
                             | None => PNone
                             end ]}))))).

(** The handler of [/list-db-contents]: the list given to [jsonify]. *)
Definition list_db_contents (db : Database) : pyval :=
  PList (map model_to_dict (select db)).

(** ** The application: one call after another on the same table *)

(** A call to one of the three routes. *)
Inductive call : Type :=
  | ShouldSearch (req : request)
  | SearchResult (req : request)
  | ListDbContents.

(** What the route answers and the table it leaves.  An exception that
    leaves a view function ends that request only. *)
Definition serve (E : Collaborators) (c : call) (db : Database)
    : result pyval * Database :=
  match c with
  | ShouldSearch req => predict E req db
  | SearchResult req => update E req db
  | ListDbContents => (Ok (list_db_contents db), db)
  end.

(** The table after a sequence of calls. *)
Fixpoint run (E : Collaborators) (calls : list call) (db : Database)
    : Database :=
  match calls with
  | [] => db
  | c :: rest => run E rest (snd (serve E c db))
  end.

(** ** The vocabulary of the statements *)

(** The field [f] of the table is present in [d] with an allowed kind. *)
Definition field_ok (d : gmap string pyval) (f : string * list pytype)
    : bool :=
  match d !! f.1 with
  | Some v => type_in (type_of v) f.2
  | None => false
  end.

(** The entries of the table that come before [col]. *)
Fixpoint fields_before (col : string) (tbl : list (string * list pytype))
    : list (string * list pytype) :=
  match tbl with
  | [] => []
  | f :: rest =>
      if bool_decide (f.1 = col) then [] else f :: fields_before col rest
  end.

(** Both keys of the table are unique: the primary key and the indexed
    [observation_id]. *)
Definition wf (db : Database) : Prop :=
  List.NoDup (map id db) /\ List.NoDup (map observation_id db).

(** The number of rows stored under [oid]. *)
Definition count_id (oid : string) (db : Database) : nat :=
  length (List.filter (has_id oid) db).

(** The verifier accepts the request's payload and the artifact scores
    it: [oid] is the id it carries, [pr] the probability of the positive
    class and [pd] the label. *)
Definition scores_as (E : Collaborators) (req : request) (oid : string)
    (pr pd : float) : Prop :=
  exists obs_dict,
    get_json req = Ok obs_dict /\
    verify_data_types obs_dict = Ok (false, all_correct) /\
    score E obs_dict = Ok (PStr oid, pr, pd).

Definition outcome_only (pd : float) : pyval :=
  PDict {[ "outcome" := PBool (truthy pd) ]}.

Definition outcome_and_error (pd : float) (msg : string) : pyval :=
  PDict (<[ "error" := PStr msg ]> {[ "outcome" := PBool (truthy pd) ]}).

Definition reconciled (oid : string) (outcome : pyval) (p : Prediction)
    : pyval :=
  PDict (<[ "observation_id" := PStr oid ]>
        (<[ "outcome" := outcome ]>
          {[ "predicted_outcome" := PFloat (prediction p) ]})).

(** The outcomes the handlers are written for, and the value the
    INTEGER column holds for each: a null stays a null, a boolean is
    stored as 1 or 0, an int that fits in 64 bits as itself. *)
Inductive stores : pyval -> option Z -> Prop :=
  | stores_null : stores PNone None
  | stores_bool (b : bool) : stores (PBool b) (Some (if b then 1 else 0))
  | stores_int (z : Z) :
      - 2 ^ 63 <= z < 2 ^ 63 -> stores (PInt z) (Some z).

(** The entry [outcome] of an answer, when it has one. *)
Definition outcome_of (answer : result pyval) : option pyval :=
  match answer with
  | Ok (PDict d) => d !! "outcome"
  | _ => None
  end.

(** The entry of a dict under a key. *)
Definition entry (k : string) (v : pyval) : option pyval :=
  match v with
  | PDict d => d !! k
  | _ => None
  end.

(** The columns of a row that are written once, when it is inserted. *)
Definition written_once (p : Prediction)
    : Z * string * string * float * float :=
  (id p, observation_id p, observation p, prediction p, proba p).

(** The kinds of value no field of the table allows. *)
Definition never_allowed : list pytype := [TNone; TList; TDict].

(** ** A stand-in for the collaborators, used to run the handlers *)

Module Demo.

Definition columns : list string :=
  [ "Type"; "Date"; "Part of a policing operation"; "Latitude";
    "Longitude"; "Gender"; "Age range"; "Officer-defined ethnicity";
    "Legislation"; "Object of search"; "station" ].

(** An int that no float64 can hold. *)
Definition overflows (cell : option pyval) : bool :=
  match cell with
  | Some (PInt z) => bool_decide (2 ^ 1024 <= Z.abs z)
  | _ => false
  end.

Definition to_frame (obs : pyval) : result (list (option pyval)) :=
  match obs with
  | PDict d =>
      let row := map (fun c => d !! c) columns in
      if existsb overflows row then Raise OverflowError else Ok row
  | _ => Raise ValueError
  end.

Definition positive (row : list (option pyval)) : bool :=
  existsb (fun cell => match cell with
                       | Some (PBool true) => true
                       | _ => false
                       end) row.

Definition predict_proba (row : list (option pyval)) : result float :=
  Ok (if positive row then 0.75%float else 0.25%float).

Definition pipeline_predict (row : list (option pyval)) : result float :=
  Ok (if positive row then 1%float else 0%float).

Definition text_db_value (v : pyval) : result (option string) :=
  match v with
  | PNone => Ok None
  | _ => Raise TypeError
  end.

Definition int_db_value (v : pyval) : result (option Z) :=
  Raise TypeError.

Definition py_str (v : pyval) : string := "<object>".

(** Modelled from the spec: the artifact under [model/] (the column
    list, the dtype map and the pickled pipeline) is not among the
    sources.  This stand-in keeps the fixed column layout of section
    4.2, fails to coerce an int too large for a float column, and
    answers with a label and the probability of the positive class. *)
Definition collaborators : Collaborators :=
  mkCollaborators (list (option pyval)) to_frame predict_proba
                  pipeline_predict text_db_value int_db_value py_str.

(** The example observation of section 8 of the specification. *)
Definition obs1 : gmap string pyval :=
  {[ "observation_id" := PStr "obs-1";
     "Type" := PStr "Person search";
     "Date" := PStr "2023-01-01";
     "Part of a policing operation" := PBool false;
     "Latitude" := PFloat 51.5%float;
     "Longitude" := PFloat (-0.1)%float;
     "Gender" := PStr "Male";
     "Age range" := PStr "18-24";
     "Officer-defined ethnicity" := PStr "White";
     "Legislation" := PStr "Misuse of Drugs Act 1971";
     "Object of search" := PStr "Controlled drugs";
     "station" := PStr "metropolitan" ]}.

Definition req1 : request := mkRequest "<body of obs-1>" (Ok (PDict obs1)).

(** The same observation sent again, with another flag and another
    body. *)
Definition obs1' : gmap string pyval :=
  <[ "Part of a policing operation" := PBool true ]> obs1.

Definition req1' : request :=
  mkRequest "<second body of obs-1>" (Ok (PDict obs1')).

(** A reconciliation request for [obs-1]. *)
Definition fix1 : request :=
  mkRequest "<body of the correction>"
            (Ok (PDict {[ "observation_id" := PStr "obs-1";
                          "outcome" := PInt 1 ]})).

(** The table after [req1] has been scored on an empty table. *)
Definition db1 : Database :=
  [ mkPrediction 1 "obs-1" "<body of obs-1>" 0%float 0.25%float None ].

End Demo.

(** ** More requests for the examples *)

Module Cases.

(** [obs-1] with a Latitude that is an int no float64 can hold. *)
Definition huge_obs : gmap string pyval :=
  <[ "Latitude" := PInt (10 ^ 400) ]> Demo.obs1.

Definition huge : request :=
  mkRequest "<body with a 400-digit Latitude>" (Ok (PDict huge_obs)).

(** A body that is not JSON. *)
Definition not_json : request := mkRequest "outcome=1" (Raise BadRequest).

(** A correction of [obs-1] whose outcome is 2^63, one more than the
    largest signed 64-bit number. *)
Definition fix_big : request :=
  mkRequest "<body of the correction>"
            (Ok (PDict {[ "observation_id" := PStr "obs-1";
                          "outcome" := PInt (2 ^ 63) ]})).


(** The JSON document [5]. *)
Definition five : request := mkRequest "5" (Ok (PInt 5)).

(** The JSON document [{}]. *)
Definition empty : request := mkRequest "{}" (Ok (PDict ∅)).

(** Two fields the table does not know. *)
Definition extras : gmap string pyval :=
  {[ "comment" := PStr "stopped near the station";
     "Outcome linked to object of search" := PBool false ]}.

Definition with_extras : request :=
  mkRequest "<body of obs-1 with a comment>"
            (Ok (PDict (Demo.obs1 ∪ extras))).

(** A correction that also carries the key [id]. *)
Definition fix_with_id : request :=
  mkRequest "<body of the correction>"
            (Ok (PDict {[ "observation_id" := PStr "obs-1";
                          "outcome" := PInt 1;
                          "id" := PStr "row-7" ]})).

(** A correction without an outcome. *)
Definition fix_no_outcome : request :=
  mkRequest "<body of the correction>"
            (Ok (PDict {[ "observation_id" := PStr "obs-1" ]})).

(** Only a Latitude, and a boolean one. *)
Definition only_latitude : gmap string pyval :=
  {[ "Latitude" := PBool true ]}.

(** [obs-1] with both coordinates boolean. *)
Definition both_boolean : gmap string pyval :=
  <[ "Latitude" := PBool true ]> (<[ "Longitude" := PBool false ]> Demo.obs1).

(** [obs-1] with an int where the boolean belongs. *)
Definition int_flag : gmap string pyval :=
  <[ "Part of a policing operation" := PInt 1 ]> Demo.obs1.

(** [obs-1] with other values of the same kinds. *)
Definition other_values : gmap string pyval :=
  <[ "Latitude" := PFloat 1000%float ]>
  (<[ "Gender" := PStr "" ]>
  (<[ "Date" := PStr "not a date" ]> Demo.obs1)).

(** [obs-1] with a null Gender. *)
Definition null_gender : gmap string pyval :=
  <[ "Gender" := PNone ]> Demo.obs1.

(** A second observation and its request. *)
Definition obs2 : gmap string pyval :=
  <[ "observation_id" := PStr "obs-2" ]> Demo.obs1'.

Definition req2 : request := mkRequest "<body of obs-2>" (Ok (PDict obs2)).

(** A correction of [obs-1] to 0 and a correction of [obs-2] to 1. *)
Definition fix1_zero : request :=
  mkRequest "<body of the second correction>"
            (Ok (PDict {[ "observation_id" := PStr "obs-1";
                          "outcome" := PInt 0 ]})).

Definition fix2 : request :=
  mkRequest "<body of the correction of obs-2>"
            (Ok (PDict {[ "observation_id" := PStr "obs-2";
                          "outcome" := PInt 1 ]})).

(** A correction without an id. *)
Definition fix_no_id : request :=
  mkRequest "<body of the correction>"
            (Ok (PDict {[ "outcome" := PInt 1 ]})).

(** The table after [obs-1] and [obs-2] have been scored. *)
Definition db2 : Database :=
  [ mkPrediction 1 "obs-1" "<body of obs-1>" 0%float 0.25%float None;
    mkPrediction 2 "obs-2" "<body of obs-2>" 1%float 0.75%float None ].

End Cases.

(** ** Running the handlers on the examples *)

Example predict_req1 :
  predict Demo.collaborators Demo.req1 [] =
    (Ok (PDict {[ "outcome" := PBool false ]}), Demo.db1).
Proof. vm_compute. reflexivity. Qed.

Example predict_req1_again :
  predict Demo.collaborators Demo.req1' Demo.db1 =
    (Ok (PDict (<[ "error" := PStr (already_exists_msg "obs-1") ]>
                  {[ "outcome" := PBool true ]})), Demo.db1).
Proof. vm_compute. reflexivity. Qed.

Example update_fix1 :
  update Demo.collaborators Demo.fix1 Demo.db1 =
    (Ok (PDict (<[ "observation_id" := PStr "obs-1" ]>
               (<[ "outcome" := PInt 1 ]>
                 {[ "predicted_outcome" := PFloat 0%float ]}))),
     [ mkPrediction 1 "obs-1" "<body of obs-1>" 0%float 0.25%float
                    (Some 1) ]).
Proof. vm_compute. reflexivity. Qed.

Example already_exists_text :
  already_exists_msg "obs-1" =
    String.append "Observation ID: "
      (String "034"%char (String.append "obs-1"
         (String "034"%char " already exists"))).
Proof. reflexivity. Qed.

Example wrong_type_text :
  wrong_type_msg "Latitude" [TFloat; TInt] TBool =
    "Latitude column has wrong data type. Expected [<class 'float'>, <class 'int'>], got <class 'bool'>".
Proof. reflexivity. Qed.

Example predict_empty_payload E db :
  predict E Cases.empty db =
    (Ok (PDict {[ "error" :=
           PDict {[ "error" := PStr "observation_id column not found" ]} ]}),
     db).
Proof. reflexivity. Qed.

Example predict_int_flag E db :
  predict E (mkRequest "<body>" (Ok (PDict Cases.int_flag))) db =
    (Ok (PDict {[ "error" := PDict {[ "error" := PStr
       "Part of a policing operation column has wrong data type. Expected [<class 'bool'>], got <class 'int'>"
       ]} ]}), db).
Proof. vm_compute. reflexivity. Qed.

(** ** Validation of a dict *)

Section Validation.

Variable d : gmap string pyval.

Lemma verify_loop_step_ok col tys rest :
  field_ok d (col, tys) = true ->
  verify_loop ((col, tys) :: rest) (PDict d) = verify_loop rest (PDict d).
Proof.
  unfold field_ok; cbn. destruct (d !! col) as [v|] eqn:Hv; [|discriminate].
  intros Hty. rewrite bool_decide_eq_true_2 by eauto. cbn.
  now rewrite Hty.
Qed.

Lemma verify_loop_step_missing col tys rest :
  d !! col = None ->
  verify_loop ((col, tys) :: rest) (PDict d) =
    Ok (true, error_dict (PStr (not_found_msg col))).
Proof.
  intros Hv; cbn. rewrite Hv.
  rewrite bool_decide_eq_false_2; [reflexivity|].
  intros [? ?]; discriminate.
Qed.

Lemma verify_loop_step_wrong col tys rest v :
  d !! col = Some v ->
  type_in (type_of v) tys = false ->
  verify_loop ((col, tys) :: rest) (PDict d) =
    Ok (true, error_dict (PStr (wrong_type_msg col tys (type_of v)))).
Proof.
  intros Hv Hty; cbn. rewrite Hv.
  rewrite bool_decide_eq_true_2 by eauto. cbn. now rewrite Hty.
Qed.

Lemma verify_loop_skip pre rest :
  forallb (field_ok d) pre = true ->
  verify_loop (pre ++ rest)%list (PDict d) = verify_loop rest (PDict d).
Proof.
  induction pre as [|[col tys] pre IH]; [reflexivity|].
  cbn [forallb app]. intros [Hf Hpre]%andb_prop.
  rewrite verify_loop_step_ok by exact Hf. auto.
Qed.

Lemma verify_loop_all_ok tbl :
  forallb (field_ok d) tbl = true ->
  verify_loop tbl (PDict d) = Ok (false, all_correct).
Proof.
  intros H. rewrite <- (app_nil_r tbl). now rewrite verify_loop_skip.
Qed.

(** Either every field of the table is in order, or the loop stops at
    the first one that is not. *)
Lemma verify_loop_cases tbl :
  (forallb (field_ok d) tbl = true /\
   verify_loop tbl (PDict d) = Ok (false, all_correct)) \/
  (exists pre col tys post msg,
      tbl = (pre ++ (col, tys) :: post)%list /\
      forallb (field_ok d) pre = true /\
      field_ok d (col, tys) = false /\
      msg = match d !! col with
            | None => not_found_msg col
            | Some v => wrong_type_msg col tys (type_of v)
            end /\
      verify_loop tbl (PDict d) = Ok (true, error_dict (PStr msg))).
Proof.
  induction tbl as [|[col tys] tbl IH].
  - left; split; reflexivity.
  - destruct (field_ok d (col, tys)) eqn:Hf.
    + rewrite verify_loop_step_ok by exact Hf.
      destruct IH as [[Hall Hrun]|(pre & c & t & post & msg & -> & Hpre & Hbad & Hmsg & Hrun)].
      * left. cbn [forallb]. rewrite Hf, Hall. auto.
      * right. exists ((col, tys) :: pre), c, t, post, msg.
        cbn [forallb]. rewrite Hf, Hpre. auto.
    + right. exists [], col, tys, tbl.
      unfold field_ok in Hf; cbn in Hf.
      destruct (d !! col) as [v|] eqn:Hv.
      * exists (wrong_type_msg col tys (type_of v)).
        repeat split; try reflexivity.
        -- unfold field_ok; cbn. now rewrite Hv.
        -- now apply verify_loop_step_wrong.
      * exists (not_found_msg col).
        repeat split; try reflexivity.
        -- unfold field_ok; cbn. now rewrite Hv.
        -- now apply verify_loop_step_missing.
Qed.

End Validation.

(** A payload that is not a dict never passes the verifier. *)
Lemma verify_pass_is_dict data msg :
  verify_data_types data = Ok (false, msg) ->
  exists d, data = PDict d /\ forallb (field_ok d) expected_types = true.
Proof.
  destruct data as [| | | | s | l | d]; try discriminate.
  - unfold verify_data_types, expected_types. cbn.
    destruct (bool_decide _); cbn; discriminate.
  - unfold verify_data_types, expected_types. cbn.
    destruct (existsb _ l); cbn; discriminate.
  - intros H. exists d; split; [reflexivity|].
    destruct (verify_loop_cases d expected_types)
      as [[Hall _]|(pre & c & t & post & m & _ & _ & _ & _ & Hrun)];
      [exact Hall|].
    unfold verify_data_types in H. rewrite Hrun in H. discriminate.
Qed.

(** ** The table: keys, lookups and the two kinds of save *)

Lemma has_id_true oid p : has_id oid p = true <-> observation_id p = oid.
Proof. unfold has_id. apply bool_decide_eq_true. Qed.

Lemma has_id_false oid p : has_id oid p = false <-> observation_id p <> oid.
Proof. unfold has_id. apply bool_decide_eq_false. Qed.

Lemma has_id_set_true_class oid p tc :
  has_id oid (set_true_class p tc) = has_id oid p.
Proof. reflexivity. Qed.

Lemma existsb_find_none oid (db : Database) :
  existsb (has_id oid) db = false <-> find (has_id oid) db = None.
Proof.
  induction db as [|r db IH]; cbn; [tauto|].
  destruct (has_id oid r); cbn; [split; discriminate|exact IH].
Qed.

Lemma find_snoc {A} (f : A -> bool) (l : list A) (x : A) :
  find f l = None -> f x = true -> find f (l ++ [x])%list = Some x.
Proof.
  intros Hl Hx. induction l as [|y l IH]; cbn in *.
  - now rewrite Hx.
  - destruct (f y); [discriminate|auto].
Qed.

Lemma get_absent oid db :
  existsb (has_id oid) db = false <-> get oid db = Raise DoesNotExist.
Proof.
  unfold get. rewrite existsb_find_none.
  destruct (find (has_id oid) db); split; congruence.
Qed.

Lemma get_present oid db p :
  get oid db = Ok p -> List.In p db /\ observation_id p = oid.
Proof.
  unfold get. destruct (find (has_id oid) db) as [q|] eqn:Hf; [|discriminate].
  intros [= <-]. apply find_some in Hf as [Hin Hid].
  split; [exact Hin|now apply has_id_true].
Qed.

Lemma get_present_existsb oid db p :
  get oid db = Ok p -> existsb (has_id oid) db = true.
Proof.
  intros H. destruct (existsb (has_id oid) db) eqn:He; [reflexivity|].
  apply get_absent in He. congruence.
Qed.

Lemma count_id_absent oid db :
  existsb (has_id oid) db = false -> count_id oid db = 0%nat.
Proof.
  unfold count_id. induction db as [|r db IH]; cbn; [reflexivity|].
  intros [Hr Hdb]%orb_false_elim. rewrite Hr. auto.
Qed.

Lemma count_id_app oid db db' :
  count_id oid (db ++ db')%list = (count_id oid db + count_id oid db')%nat.
Proof. unfold count_id. now rewrite List.filter_app, length_app. Qed.

Lemma next_id_above db r : List.In r db -> id r < next_id db.
Proof.
  unfold next_id. induction db as [|q db IH]; cbn; [tauto|].
  intros [->|Hin]; [lia|]. specialize (IH Hin). lia.
Qed.

Lemma next_id_fresh db : ~ List.In (next_id db) (map id db).
Proof.
  intros (r & Hid & Hin)%in_map_iff.
  apply next_id_above in Hin. lia.
Qed.

Lemma wf_nil : wf [].
Proof. split; constructor. Qed.

Lemma NoDup_map_snoc {A B} (f : A -> B) (l : list A) (x : A) :
  List.NoDup (map f l) -> ~ List.In (f x) (map f l) ->
  List.NoDup (map f (l ++ [x])%list).
Proof.
  induction l as [|y l IH]; cbn; intros Hnd Hx.
  - constructor; [tauto|constructor].
  - apply List.NoDup_cons_iff in Hnd as [Hy Hnd].
    constructor.
    + rewrite map_app, in_app_iff. cbn. intros [H|[H|[]]]; [tauto|].
      apply Hx. now left.
    + apply IH; [exact Hnd|]. intros H. apply Hx. now right.
  Qed.

Lemma wf_save_new oid pr pd raw db db' :
  wf db -> save_new oid pr pd raw db = Ok db' -> wf db'.
Proof.
  intros [Hid Hoid]. unfold save_new.
  destruct (existsb (has_id oid) db) eqn:He; [discriminate|].
  intros [= <-]. split; apply NoDup_map_snoc; auto.
  - apply next_id_fresh.
  - cbn. intros (r & Hr & Hin)%in_map_iff.
    apply existsb_find_none in He.
    apply (find_none _ _ He) in Hin. apply has_id_false in Hin. tauto.
Qed.

Lemma NoDup_map_inj {A B} (f : A -> B) (l : list A) x y :
  List.NoDup (map f l) -> List.In x l -> List.In y l -> f x = f y -> x = y.
Proof.
  induction l as [|z l IH]; cbn; [tauto|].
  intros [Hz Hnd]%List.NoDup_cons_iff [->|Hx] [->|Hy] Heq; auto.
  - exfalso. apply Hz. rewrite Heq. now apply in_map.
  - exfalso. apply Hz. rewrite <- Heq. now apply in_map.
Qed.

(** On a table with unique keys, saving a row read under [oid] with a new
    [true_class] rewrites that column of that row and nothing else. *)
Lemma save_existing_true_class oid db p tc :
  wf db -> get oid db = Ok p ->
  save_existing (set_true_class p tc) db =
    map (fun r => if has_id oid r then set_true_class r tc else r) db.
Proof.
  intros [Hid Hoid] [Hin Hp]%get_present. unfold save_existing.
  apply map_ext_in. intros r Hr. cbn.
  case_bool_decide as Hk.
  - assert (r = p) as -> by now apply (NoDup_map_inj id db).
    now rewrite (proj2 (has_id_true oid p) Hp).
  - destruct (has_id oid r) eqn:Hh; [|reflexivity].
    apply has_id_true in Hh.
    assert (r = p) as -> by (apply (NoDup_map_inj observation_id db); congruence).
    congruence.
Qed.

Lemma wf_save_existing oid db p tc :
  wf db -> get oid db = Ok p -> wf (save_existing (set_true_class p tc) db).
Proof.
  intros Hwf Hget. rewrite (save_existing_true_class oid) by assumption.
  destruct Hwf as [Hid Hoid].
  split; rewrite map_map.
  - erewrite map_ext; [exact Hid|]. intros r; cbn. now destruct (has_id oid r).
  - erewrite map_ext; [exact Hoid|]. intros r; cbn. now destruct (has_id oid r).
Qed.

(** After the save, a lookup under the same id finds the saved row. *)
Lemma get_save_existing oid db p tc :
  get oid db = Ok p ->
  get oid (save_existing (set_true_class p tc) db) = Ok (set_true_class p tc).
Proof.
  unfold get, save_existing.
  induction db as [|r db IH]; cbn; [discriminate|].
  destruct (has_id oid r) eqn:Hr.
  - intros [= ->]. rewrite bool_decide_eq_true_2 by reflexivity.
    now rewrite has_id_set_true_class, Hr.
  - intros Hp. case_bool_decide as Hk.
    + destruct (find (has_id oid) db) as [q|] eqn:Hf; [|discriminate].
      injection Hp as ->. apply find_some in Hf as [_ Hq].
      now rewrite has_id_set_true_class, Hq.
    + rewrite Hr. now apply IH.
Qed.

(** Saving the saved row again changes nothing. *)
Lemma save_existing_twice p db :
  save_existing p (save_existing p db) = save_existing p db.
Proof.
  unfold save_existing. rewrite map_map. apply map_ext. intros r.
  destruct (bool_decide (id r = id p)) eqn:Hk.
  - now rewrite bool_decide_eq_true_2.
  - now rewrite Hk.
Qed.

Lemma length_save_existing p db : length (save_existing p db) = length db.
Proof. unfold save_existing. apply length_map. Qed.

(** An id with no row before the save has no row after it. *)
Lemma save_existing_absent oid oid' db p tc :
  get oid db = Ok p ->
  existsb (has_id oid') db = false ->
  existsb (has_id oid') (save_existing (set_true_class p tc) db) = false.
Proof.
  intros [Hin Hp]%get_present Habs.
  assert (has_id oid' p = false) as Hp'.
  { apply existsb_find_none in Habs. exact (find_none _ _ Habs _ Hin). }
  unfold save_existing. clear Hin.
  induction db as [|r db IH]; cbn [map existsb]; [reflexivity|].
  cbn [existsb] in Habs. apply orb_false_elim in Habs as [Hr Hdb].
  rewrite (IH Hdb), orb_false_r.
  case_bool_decide; [now rewrite has_id_set_true_class|exact Hr].
Qed.

Lemma get_map_other oid oid' tc (db : Database) :
  oid' <> oid ->
  get oid' (map (fun r => if has_id oid r then set_true_class r tc else r) db)
    = get oid' db.
Proof.
  intros Hne. unfold get. induction db as [|r db IH]; cbn; [reflexivity|].
  destruct (has_id oid r) eqn:Hr.
  - rewrite has_id_set_true_class.
    assert (has_id oid' r = false) as ->.
    { apply has_id_false. apply has_id_true in Hr. congruence. }
    exact IH.
  - destruct (has_id oid' r); [reflexivity|exact IH].
Qed.

(** ** The scoring handler, path by path *)

Section Predict.

Variable E : Collaborators.

(** Lines 101-108 when every call returns. *)
Lemma score_returns d _id fr pr pd :
  d !! "observation_id" = Some _id ->
  to_frame E (PDict d) = Ok fr ->
  predict_proba E fr = Ok pr ->
  pipeline_predict E fr = Ok pd ->
  score E (PDict d) = Ok (_id, pr, pd).
Proof.
  intros Hid Hfr Hpr Hpd. unfold score. cbn. rewrite Hid. cbn.
  rewrite Hfr. cbn. rewrite Hpr. cbn. now rewrite Hpd.
Qed.

(** Lines 101-108 when one of the three calls raises. *)
Lemma score_raises d _id e :
  d !! "observation_id" = Some _id ->
  (to_frame E (PDict d) = Raise e \/
   exists fr,
     to_frame E (PDict d) = Ok fr /\
     (predict_proba E fr = Raise e \/
      exists pr,
        predict_proba E fr = Ok pr /\ pipeline_predict E fr = Raise e)) ->
  score E (PDict d) = Raise e.
Proof.
  intros Hid H. unfold score. cbn. rewrite Hid. cbn.
  destruct H as [->|(fr & -> & [Hpr|(pr & Hpr & Hpd)])]; cbn;
    [reflexivity|now rewrite Hpr|].
  rewrite Hpr. cbn. now rewrite Hpd.
Qed.

Lemma valid_scores_as req d oid pr pd :
  get_json req = Ok (PDict d) ->
  forallb (field_ok d) expected_types = true ->
  score E (PDict d) = Ok (PStr oid, pr, pd) ->
  scores_as E req oid pr pd.
Proof.
  intros Hreq Hok Hs. exists (PDict d). split; [exact Hreq|].
  split; [|exact Hs]. now apply verify_loop_all_ok.
Qed.

(** A body that [request.get_json()] refuses. *)
Lemma predict_unparsed req db e :
  get_json req = Raise e -> predict E req db = (Raise e, db).
Proof. intros H. unfold predict. now rewrite H. Qed.

(** A payload the verifier turns down: the answer and an untouched
    table. *)
Lemma predict_rejected req obs_dict db error_msg :
  get_json req = Ok obs_dict ->
  verify_data_types obs_dict = Ok (true, error_msg) ->
  predict E req db = (Ok (PDict {[ "error" := error_msg ]}), db).
Proof. intros Hreq H. unfold predict. now rewrite Hreq, H. Qed.

(** A failure between validation and the save leaves the handler as the
    exception it is. *)
Lemma predict_score_raises req obs_dict db msg e :
  get_json req = Ok obs_dict ->
  verify_data_types obs_dict = Ok (false, msg) ->
  score E obs_dict = Raise e ->
  predict E req db = (Raise e, db).
Proof. intros Hreq Hv Hs. unfold predict. now rewrite Hreq, Hv, Hs. Qed.

Lemma predict_fresh req db oid pr pd :
  scores_as E req oid pr pd ->
  existsb (has_id oid) db = false ->
  predict E req db =
    (Ok (outcome_only pd),
     (db ++ [mkPrediction (next_id db) oid (data req) pd pr None])%list).
Proof.
  intros (obs_dict & Hreq & Hv & Hs) Hfresh.
  unfold predict. rewrite Hreq, Hv, Hs. cbn.
  unfold save_new. now rewrite Hfresh.
Qed.

Lemma predict_duplicate req db oid pr pd :
  scores_as E req oid pr pd ->
  existsb (has_id oid) db = true ->
  predict E req db =
    (Ok (outcome_and_error pd (already_exists_msg oid)), db).
Proof.
  intros (obs_dict & Hreq & Hv & Hs) Hdup.
  unfold predict. rewrite Hreq, Hv, Hs. cbn.
  unfold save_new. now rewrite Hdup.
Qed.

(** What [predict] does to the table: nothing, or one new last row with
    no [true_class]. *)
Lemma predict_table req db :
  snd (predict E req db) = db \/
  exists row,
    true_class row = None /\ snd (predict E req db) = (db ++ [row])%list.
Proof.
  unfold predict.
  destruct (get_json req) as [obs_dict|e]; auto.
  destruct (verify_data_types obs_dict) as [[[] msg]|e]; auto.
  destruct (score E obs_dict) as [[[_id pr] pd]|e]; auto.
  unfold save_prediction.
  destruct (text_value E _id) as [[oid|]|e]; cbn [bind]; auto.
  - unfold save_new. destruct (existsb (has_id oid) db); auto.
    right. eexists. split; [|reflexivity]. reflexivity.
  - destruct e; auto.
Qed.

(** Scoring keeps both keys of the table unique. *)
Lemma wf_predict req db : wf db -> wf (snd (predict E req db)).
Proof.
  intros Hwf. unfold predict.
  destruct (get_json req) as [obs_dict|e]; cbn [snd]; auto.
  destruct (verify_data_types obs_dict) as [[[] msg]|e]; cbn [snd]; auto.
  destruct (score E obs_dict) as [[[_id pr] pd]|e]; cbn [snd]; auto.
  unfold save_prediction.
  destruct (text_value E _id) as [[oid|]|e]; cbn [bind]; auto.
  - destruct (save_new oid pr pd (data req) db) as [db'|e] eqn:Hs.
    + cbn [snd]. eapply wf_save_new; eauto.
    + destruct e; cbn; auto.
  - destruct e; cbn; auto.
Qed.

End Predict.

(** ** The reconciliation handler, path by path *)

Section Update.

Variable E : Collaborators.

(** The value stored for an outcome the handlers are written for is the
    one [p.save()] computes, whatever the collaborators. *)
Lemma stores_int_value v tc : stores v tc -> int_value E v = Ok tc.
Proof.
  intros [|[]|z Hz]; try reflexivity.
  cbn. unfold int64.
  rewrite (proj2 (Z.leb_le _ _)), (proj2 (Z.ltb_lt _ _)) by lia.
  reflexivity.
Qed.

Lemma int_value_out_of_range z :
  ~ (- 2 ^ 63 <= z < 2 ^ 63) -> int_value E (PInt z) = Raise OverflowError.
Proof.
  intros Hz. cbn. unfold int64.
  destruct (- 2 ^ 63 <=? z) eqn:H1, (z <? 2 ^ 63) eqn:H2; try reflexivity.
  apply Z.leb_le in H1. apply Z.ltb_lt in H2. lia.
Qed.

(** On a table with unique ids, a row is what a lookup under its id
    finds. *)
Lemma get_row db p :
  wf db -> List.In p db -> get (observation_id p) db = Ok p.
Proof.
  intros [_ Hnd] Hin. unfold get.
  destruct (find (has_id (observation_id p)) db) as [q|] eqn:Hf.
  - apply find_some in Hf as [Hq Hid]. apply has_id_true in Hid.
    f_equal. now apply (NoDup_map_inj observation_id db).
  - pose proof (find_none _ _ Hf _ Hin) as Hno.
    apply has_id_false in Hno. congruence.
Qed.

Lemma update_unparsed req db e :
  get_json req = Raise e -> update E req db = (Raise e, db).
Proof. intros H. unfold update. now rewrite H. Qed.

Lemma update_try_found d db oid v tc p :
  d !! "observation_id" = Some (PStr oid) ->
  d !! "outcome" = Some v ->
  int_value E v = Ok tc ->
  get oid db = Ok p ->
  update_try E (PDict d) db =
    Ok (reconciled oid v p, save_existing (set_true_class p tc) db).
Proof.
  intros Hid Hout Htc Hget. unfold update_try. cbn.
  rewrite Hid. cbn. rewrite Hget. cbn. rewrite Hout. cbn. rewrite Htc. cbn.
  apply get_present in Hget as [_ ->]. reflexivity.
Qed.

Lemma update_found req d db oid v tc p :
  get_json req = Ok (PDict d) ->
  d !! "observation_id" = Some (PStr oid) ->
  d !! "outcome" = Some v ->
  int_value E v = Ok tc ->
  get oid db = Ok p ->
  update E req db =
    (Ok (reconciled oid v p), save_existing (set_true_class p tc) db).
Proof.
  intros Hreq Hid Hout Htc Hget. unfold update. rewrite Hreq.
  now rewrite (update_try_found d db oid v tc p).
Qed.

(** A stored id whose correction the save refuses, or that comes without
    an outcome. *)
Lemma update_found_refused req d db oid p e :
  get_json req = Ok (PDict d) ->
  d !! "observation_id" = Some (PStr oid) ->
  get oid db = Ok p ->
  (d !! "outcome" = None /\ e = KeyError "outcome" \/
   exists v, d !! "outcome" = Some v /\ int_value E v = Raise e) ->
  e <> DoesNotExist ->
  update E req db = (Ok (PDict {[ "error" := PStr malformed_msg ]}), db).
Proof.
  intros Hreq Hid Hget Hout Hne. unfold update, update_try.
  rewrite Hreq. cbn. rewrite Hid. cbn. rewrite Hget. cbn.
  destruct Hout as [[-> ->]|(v & -> & Hv)]; cbn; [reflexivity|].
  rewrite Hv. cbn. destruct e; try reflexivity. congruence.
Qed.

(** The shape of every run of the [try] body: it either fails, or it
    found a row and saved it with the new [true_class]. *)
Lemma update_try_ok obs db response db' :
  update_try E obs db = Ok (response, db') ->
  exists oid p tc,
    get oid db = Ok p /\
    db' = save_existing (set_true_class p tc) db /\
    forall db0,
      get oid db0 = Ok (set_true_class p tc) ->
      update_try E obs db0 =
        Ok (response,
            save_existing (set_true_class (set_true_class p tc) tc) db0).
Proof.
  unfold update_try.
  destruct (py_getitem obs "observation_id") as [v|e] eqn:Hv; [|discriminate].
  cbn. destruct (text_value E v) as [[oid|]|e] eqn:Hk; try discriminate.
  cbn. destruct (get oid db) as [p|e] eqn:Hget; [|discriminate].
  cbn. destruct (py_getitem obs "outcome") as [o|e] eqn:Ho; [|discriminate].
  cbn. destruct (int_value E o) as [tc|e] eqn:Htc; [|discriminate].
  cbn. intros [= <- <-]. exists oid, p, tc. repeat split; auto.
  intros db0 Hget0. rewrite Hget0. cbn. reflexivity.
Qed.

(** A run of [update] that does not answer with the reconciled row
    leaves the table as it was. *)
Lemma update_try_raise_keeps req obs db e :
  get_json req = Ok obs ->
  update_try E obs db = Raise e ->
  snd (update E req db) = db.
Proof.
  intros Hreq H. unfold update. rewrite Hreq, H.
  destruct e; try reflexivity.
  now destruct (py_getitem obs "id").
Qed.

(** What [update] does to the table: nothing, or a save of a row it found
    with a new [true_class]. *)
Lemma update_table req db :
  snd (update E req db) = db \/
  exists oid p tc,
    get oid db = Ok p /\
    snd (update E req db) = save_existing (set_true_class p tc) db.
Proof.
  destruct (get_json req) as [obs|e] eqn:Hreq;
    [|left; now rewrite (update_unparsed req db e)].
  destruct (update_try E obs db) as [[response db']|e] eqn:Ht.
  - right. unfold update. rewrite Hreq, Ht. cbn.
    apply update_try_ok in Ht as (oid & p & tc & Hget & -> & _).
    now exists oid, p, tc.
  - left. now apply (update_try_raise_keeps req obs db e).
Qed.

(** The same for a request that names [oid]: the row saved is the one
    stored under [oid]. *)
Lemma update_table_named req d db oid :
  get_json req = Ok (PDict d) ->
  d !! "observation_id" = Some (PStr oid) ->
  snd (update E req db) = db \/
  exists p tc,
    get oid db = Ok p /\
    snd (update E req db) = save_existing (set_true_class p tc) db.
Proof.
  intros Hreq Hid. unfold update, update_try. rewrite Hreq. cbn.
  rewrite Hid. cbn. destruct (get oid db) as [p|e] eqn:Hget; cbn.
  - destruct (d !! "outcome") as [v|]; cbn; [|now left].
    destruct (int_value E v) as [tc|e]; cbn.
    + right. now exists p, tc.
    + left. destruct e; try reflexivity. now destruct (d !! "id").
  - left. destruct e; try reflexivity. now destruct (d !! "id").
Qed.

(** Reconciliation keeps both keys of the table unique. *)
Lemma wf_update req db : wf db -> wf (snd (update E req db)).
Proof.
  intros Hwf.
  destruct (update_table req db) as [->|(oid & p & tc & Hget & ->)];
    [exact Hwf|].
  now apply (wf_save_existing oid).
Qed.

End Update.

(** ** The claims *)

(** C1 (the code departs from the claim).  A reconciliation request whose
    [observation_id] has no row leaves the table as it was, but the
    answer is built from the key [id] of the request, not from
    [observation_id]: with an [id] the message quotes that value, and
    without one the handler ends in [KeyError]. *)
Theorem update_unknown_id E req d db oid :
  get_json req = Ok (PDict d) ->
  d !! "observation_id" = Some (PStr oid) ->
  existsb (has_id oid) db = false ->
  update E req db =
    (match d !! "id" with
     | Some shown =>
         Ok (PDict {[ "error" :=
               PStr (does_not_exist_msg (format_arg E shown)) ]})
     | None => Raise (KeyError "id")
     end, db).
Proof.
  intros Hreq Hid Habs. apply get_absent in Habs.
  unfold update, update_try. rewrite Hreq. cbn. rewrite Hid. cbn.
  rewrite Habs. cbn. now destruct (d !! "id").
Qed.

(** The theorem on the empty table, for a correction without the key [id]
    and for one with it. *)
Lemma update_unknown_id_witness :
  update Demo.collaborators Demo.fix1 [] = (Raise (KeyError "id"), []) /\
  update Demo.collaborators Cases.fix_with_id [] =
    (Ok (PDict {[ "error" := PStr (does_not_exist_msg "row-7") ]}), []).
Proof.
  split.
  - exact (update_unknown_id Demo.collaborators Demo.fix1 _ [] "obs-1"
             eq_refl eq_refl eq_refl).
  - exact (update_unknown_id Demo.collaborators Cases.fix_with_id _ [] "obs-1"
             eq_refl eq_refl eq_refl).
Defined.

(** C2 (the code departs from the claim).  A mapping with a missing field
    or a field of the wrong kind is answered without touching the table,
    and the message names the first offending field in table order; but
    the value under [error] is the verifier's own dict [{'error': msg}],
    not the string [msg]. *)
Theorem predict_invalid_payload E req d db :
  get_json req = Ok (PDict d) ->
  forallb (field_ok d) expected_types = false ->
  exists pre col tys post msg,
    expected_types = (pre ++ (col, tys) :: post)%list /\
    forallb (field_ok d) pre = true /\
    field_ok d (col, tys) = false /\
    msg = match d !! col with
          | None => not_found_msg col
          | Some v => wrong_type_msg col tys (type_of v)
          end /\
    predict E req db =
      (Ok (PDict {[ "error" := PDict {[ "error" := PStr msg ]} ]}), db).
Proof.
  intros Hreq Hbad.
  destruct (verify_loop_cases d expected_types)
    as [[Hall _]|(pre & col & tys & post & msg & Hsplit & Hpre & Hf & Hmsg & Hrun)];
    [congruence|].
  exists pre, col, tys, post, msg. repeat split; auto.
  now apply (predict_rejected E req (PDict d)).
Qed.

(** The theorem for the empty mapping. *)
Lemma predict_invalid_payload_witness :
  exists pre col tys post msg,
    expected_types = (pre ++ (col, tys) :: post)%list /\
    forallb (field_ok ∅) pre = true /\
    field_ok ∅ (col, tys) = false /\
    msg = match (∅ : gmap string pyval) !! col with
          | None => not_found_msg col
          | Some v => wrong_type_msg col tys (type_of v)
          end /\
    predict Demo.collaborators Cases.empty [] =
      (Ok (PDict {[ "error" := PDict {[ "error" := PStr msg ]} ]}), []).
Proof.
  exact (predict_invalid_payload Demo.collaborators Cases.empty ∅ []
           eq_refl eq_refl).
Defined.

(** C3 (as stated, refuted).  Two requests that leave [predict] as an
    exception: a JSON document that is not a mapping, and an observation
    that passes the verifier but that the artifact cannot coerce. *)
Lemma predict_unhandled_exceptions :
  predict Demo.collaborators Cases.five [] = (Raise TypeError, []) /\
  get_json Cases.huge = Ok (PDict Cases.huge_obs) /\
  verify_data_types (PDict Cases.huge_obs) = Ok (false, all_correct) /\
  predict Demo.collaborators Cases.huge [] = (Raise OverflowError, []).
Proof. vm_compute. auto. Qed.

(** C3 (amended).  The failures that are answered with a payload, and the
    one that is not.  In [predict], a payload the verifier turns down and
    an id that is already stored are answered with an [error] entry and
    the table is left alone, while a failure of the artifact on a
    validated observation leaves the handler as the exception raised.  In
    [update], every exception of the [try] body other than [DoesNotExist]
    is answered with the generic message, and the table is left alone. *)
Theorem failure_paths E req db :
  (forall obs_dict error_msg,
      get_json req = Ok obs_dict ->
      verify_data_types obs_dict = Ok (true, error_msg) ->
      predict E req db = (Ok (PDict {[ "error" := error_msg ]}), db)) /\
  (forall d oid pr pd,
      get_json req = Ok (PDict d) ->
      forallb (field_ok d) expected_types = true ->
      score E (PDict d) = Ok (PStr oid, pr, pd) ->
      existsb (has_id oid) db = true ->
      predict E req db =
        (Ok (PDict (<[ "error" := PStr (already_exists_msg oid) ]>
                      {[ "outcome" := PBool (truthy pd) ]})), db)) /\
  (forall obs_dict msg e,
      get_json req = Ok obs_dict ->
      verify_data_types obs_dict = Ok (false, msg) ->
      score E obs_dict = Raise e ->
      predict E req db = (Raise e, db)) /\
  (forall obs e,
      get_json req = Ok obs ->
      update_try E obs db = Raise e ->
      e <> DoesNotExist ->
      update E req db = (Ok (PDict {[ "error" := PStr malformed_msg ]}), db)).
Proof.
  repeat split.
  - intros obs_dict error_msg. apply predict_rejected.
  - intros d oid pr pd Hreq Hok Hs Hdup.
    apply (predict_duplicate E req db oid pr pd); [|exact Hdup].
    now apply (valid_scores_as E req d).
  - intros obs_dict msg e. apply predict_score_raises.
  - intros obs e Hreq Ht Hne. unfold update. rewrite Hreq, Ht.
    destruct e; try reflexivity. congruence.
Qed.

(** Each part of the theorem on a request of its own, against the table
    that holds [obs-1]. *)
Lemma failure_paths_witness :
  predict Demo.collaborators Cases.empty Demo.db1 =
    (Ok (PDict {[ "error" :=
           error_dict (PStr "observation_id column not found") ]}),
     Demo.db1) /\
  predict Demo.collaborators Demo.req1' Demo.db1 =
    (Ok (PDict (<[ "error" := PStr (already_exists_msg "obs-1") ]>
                  {[ "outcome" := PBool true ]})), Demo.db1) /\
  predict Demo.collaborators Cases.huge Demo.db1 =
    (Raise OverflowError, Demo.db1) /\
  update Demo.collaborators Cases.fix_no_outcome Demo.db1 =
    (Ok (PDict {[ "error" := PStr malformed_msg ]}), Demo.db1) /\
  update Demo.collaborators Cases.five Demo.db1 =
    (Ok (PDict {[ "error" := PStr malformed_msg ]}), Demo.db1).
Proof.
  split; [|split; [|split; [|split]]].
  - apply (proj1 (failure_paths Demo.collaborators Cases.empty Demo.db1)
             (PDict ∅)); vm_compute; reflexivity.
  - apply (proj1 (proj2 (failure_paths Demo.collaborators Demo.req1' Demo.db1))
             Demo.obs1' "obs-1" 0.75%float 1%float);
      vm_compute; reflexivity.
  - apply (proj1 (proj2 (proj2
             (failure_paths Demo.collaborators Cases.huge Demo.db1)))
             (PDict Cases.huge_obs) all_correct); vm_compute; reflexivity.
  - apply (proj2 (proj2 (proj2
             (failure_paths Demo.collaborators Cases.fix_no_outcome Demo.db1)))
             (PDict {[ "observation_id" := PStr "obs-1" ]})
             (KeyError "outcome"));
      [vm_compute; reflexivity|vm_compute; reflexivity|discriminate].
  - apply (proj2 (proj2 (proj2
             (failure_paths Demo.collaborators Cases.five Demo.db1)))
             (PInt 5) TypeError);
      [vm_compute; reflexivity|vm_compute; reflexivity|discriminate].
Defined.

(** C4.  Two scoring requests with the same [observation_id], the first on
    a table that does not know the id: the first is stored as a new last
    row; the second is answered with its own outcome and the message
    [Observation ID: "<id>" already exists], and leaves the table exactly
    as the first call left it, with one row under the id, the row of the
    first request with the first request's body, label and probability. *)
Theorem duplicate_id_keeps_first
    E req1 req2 d1 d2 db oid fr1 fr2 pr1 pd1 pr2 pd2 :
  get_json req1 = Ok (PDict d1) ->
  forallb (field_ok d1) expected_types = true ->
  d1 !! "observation_id" = Some (PStr oid) ->
  to_frame E (PDict d1) = Ok fr1 ->
  predict_proba E fr1 = Ok pr1 ->
  pipeline_predict E fr1 = Ok pd1 ->
  get_json req2 = Ok (PDict d2) ->
  forallb (field_ok d2) expected_types = true ->
  d2 !! "observation_id" = Some (PStr oid) ->
  to_frame E (PDict d2) = Ok fr2 ->
  predict_proba E fr2 = Ok pr2 ->
  pipeline_predict E fr2 = Ok pd2 ->
  existsb (has_id oid) db = false ->
  let first := mkPrediction (next_id db) oid (data req1) pd1 pr1 None in
  let db1 := snd (predict E req1 db) in
  db1 = (db ++ [first])%list /\
  predict E req2 db1 =
    (Ok (PDict (<[ "error" :=
                     PStr ("Observation ID: " +:+
                           String "034"%char
                             (oid +:+ String "034"%char " already exists")) ]>
                  {[ "outcome" :=
                       PBool (negb (PrimFloat.eqb pd2 0%float)) ]})), db1) /\
  count_id oid db1 = 1%nat /\
  get oid db1 = Ok first.
Proof.
  intros Hreq1 Hok1 Hid1 Hfr1 Hpr1 Hpd1 Hreq2 Hok2 Hid2 Hfr2 Hpr2 Hpd2
         Hfresh first db1. subst db1.
  pose proof (valid_scores_as E req1 d1 oid pr1 pd1 Hreq1 Hok1
                (score_returns E d1 _ fr1 pr1 pd1 Hid1 Hfr1 Hpr1 Hpd1)) as H1.
  pose proof (valid_scores_as E req2 d2 oid pr2 pd2 Hreq2 Hok2
                (score_returns E d2 _ fr2 pr2 pd2 Hid2 Hfr2 Hpr2 Hpd2)) as H2.
  rewrite (predict_fresh E req1 db oid pr1 pd1 H1 Hfresh). cbn [snd].
  fold first.
  assert (find (has_id oid) (db ++ [first])%list = Some first) as Hfind.
  { apply find_snoc; [now apply existsb_find_none|now apply has_id_true]. }
  split; [reflexivity|]. split; [|split].
  - rewrite (predict_duplicate E req2 _ oid pr2 pd2 H2); [reflexivity|].
    eapply get_present_existsb. unfold get. now rewrite Hfind.
  - rewrite count_id_app, (count_id_absent oid db Hfresh).
    unfold count_id, has_id; cbn. now rewrite bool_decide_eq_true_2.
  - unfold get. now rewrite Hfind.
Qed.

(** The theorem for [obs-1] scored twice, starting from the empty
    table. *)
Lemma duplicate_id_keeps_first_witness :
  snd (predict Demo.collaborators Demo.req1 []) = Demo.db1 /\
  predict Demo.collaborators Demo.req1' Demo.db1 =
    (Ok (PDict (<[ "error" :=
                     PStr ("Observation ID: " +:+
                           String "034"%char
                             ("obs-1" +:+
                              String "034"%char " already exists")) ]>
                  {[ "outcome" := PBool true ]})), Demo.db1) /\
  count_id "obs-1" Demo.db1 = 1%nat /\
  get "obs-1" Demo.db1 =
    Ok (mkPrediction 1 "obs-1" "<body of obs-1>" 0%float 0.25%float None).
Proof.
  apply (duplicate_id_keeps_first Demo.collaborators Demo.req1 Demo.req1'
           Demo.obs1 Demo.obs1' [] "obs-1"
           (map (fun c => Demo.obs1 !! c) Demo.columns)
           (map (fun c => Demo.obs1' !! c) Demo.columns)
           0.25%float 0%float 0.75%float 1%float);
    vm_compute; reflexivity.
Defined.

(** C5 (as stated, refuted).  An observation that passes the verifier,
    with an id the table does not know, for which [predict] returns no
    outcome and stores nothing: its Latitude is an int that the coercion
    to the column type cannot take. *)
Lemma valid_fresh_observation_not_scored :
  get_json Cases.huge = Ok (PDict Cases.huge_obs) /\
  forallb (field_ok Cases.huge_obs) expected_types = true /\
  Cases.huge_obs !! "observation_id" = Some (PStr "obs-1") /\
  existsb (has_id "obs-1") [] = false /\
  predict Demo.collaborators Cases.huge [] = (Raise OverflowError, []).
Proof. vm_compute. auto. Qed.

(** C5 (amended).  A valid observation with an id the table does not
    know.  When the coercion and the two calls of the classifier return,
    the answer is the dict with the one entry [outcome], the truth value
    of the label, and the table is the old table followed by one new row,
    the only row under that id, holding the raw body, the label, the
    probability of the positive class and no [true_class].  When one of
    the three raises, the exception leaves the handler and the table is
    as before. *)
Theorem fresh_observation_recorded E req d db oid :
  get_json req = Ok (PDict d) ->
  forallb (field_ok d) expected_types = true ->
  d !! "observation_id" = Some (PStr oid) ->
  existsb (has_id oid) db = false ->
  (forall fr pr pd,
      to_frame E (PDict d) = Ok fr ->
      predict_proba E fr = Ok pr ->
      pipeline_predict E fr = Ok pd ->
      let row := mkPrediction (next_id db) oid (data req) pd pr None in
      predict E req db =
        (Ok (PDict {[ "outcome" := PBool (negb (PrimFloat.eqb pd 0%float)) ]}),
         (db ++ [row])%list) /\
      count_id oid (db ++ [row])%list = 1%nat /\
      get oid (db ++ [row])%list = Ok row) /\
  (forall e,
      (to_frame E (PDict d) = Raise e \/
       exists fr,
         to_frame E (PDict d) = Ok fr /\
         (predict_proba E fr = Raise e \/
          exists pr,
            predict_proba E fr = Ok pr /\
            pipeline_predict E fr = Raise e)) ->
      predict E req db = (Raise e, db)).
Proof.
  intros Hreq Hok Hid Hfresh. split.
  - intros fr pr pd Hfr Hpr Hpd row.
    pose proof (valid_scores_as E req d oid pr pd Hreq Hok
                  (score_returns E d _ fr pr pd Hid Hfr Hpr Hpd)) as H.
    split; [exact (predict_fresh E req db oid pr pd H Hfresh)|].
    split.
    + rewrite count_id_app, (count_id_absent oid db Hfresh).
      unfold count_id, has_id; cbn. now rewrite bool_decide_eq_true_2.
    + unfold get. rewrite (find_snoc (has_id oid) db row); auto.
      * now apply existsb_find_none.
      * now apply has_id_true.
  - intros e He.
    apply (predict_score_raises E req (PDict d) db all_correct e Hreq).
    + now apply verify_loop_all_ok.
    + now apply (score_raises E d (PStr oid)).
Qed.

(** The first part for [obs-1] on the empty table, the second for the
    observation with the 400-digit Latitude. *)
Lemma fresh_observation_recorded_witness :
  (predict Demo.collaborators Demo.req1 [] =
     (Ok (PDict {[ "outcome" := PBool false ]}), Demo.db1) /\
   count_id "obs-1" Demo.db1 = 1%nat /\
   get "obs-1" Demo.db1 =
     Ok (mkPrediction 1 "obs-1" "<body of obs-1>" 0%float 0.25%float None)) /\
  predict Demo.collaborators Cases.huge [] = (Raise OverflowError, []).
Proof.
  split.
  - apply (proj1 (fresh_observation_recorded Demo.collaborators Demo.req1
                    Demo.obs1 [] "obs-1" eq_refl eq_refl eq_refl eq_refl)
             (map (fun c => Demo.obs1 !! c) Demo.columns)
             0.25%float 0%float);
      vm_compute; reflexivity.
  - apply (proj2 (fresh_observation_recorded Demo.collaborators Cases.huge
                    Cases.huge_obs [] "obs-1" eq_refl eq_refl eq_refl eq_refl)
             OverflowError).
    left. vm_compute. reflexivity.
Defined.

(** C6 (as stated, refuted).  [obs-1] is stored with no [true_class]; a
    correction with the outcome 2^63 is answered with the generic message
    and leaves the table as it was, so that a lookup of the id does not
    return that outcome. *)
Lemma out_of_range_outcome_not_stored :
  get "obs-1" Demo.db1 =
    Ok (mkPrediction 1 "obs-1" "<body of obs-1>" 0%float 0.25%float None) /\
  get_json Cases.fix_big =
    Ok (PDict {[ "observation_id" := PStr "obs-1";
                 "outcome" := PInt 9223372036854775808 ]}) /\
  update Demo.collaborators Cases.fix_big Demo.db1 =
    (Ok (PDict {[ "error" := PStr "error malformed request" ]}), Demo.db1).
Proof. vm_compute. auto. Qed.

(** C6 (amended).  A correction that names a stored id, on a table with
    unique keys.  Whatever the outcome, the row found under the id
    afterwards has the primary key, id, raw observation, label and
    probability it had, every other id finds what it found before, and no
    row is added or removed.  When the outcome is a null, a boolean or an
    int that fits in 64 bits, the row found afterwards is the old row
    with that outcome as [true_class] (a boolean as 1 or 0); when it is
    an int that does not fit, the table is left as it was. *)
Theorem reconcile_changes_true_class_only E req d db oid p :
  wf db ->
  List.In p db ->
  observation_id p = oid ->
  get_json req = Ok (PDict d) ->
  d !! "observation_id" = Some (PStr oid) ->
  let db' := snd (update E req db) in
  (exists p', get oid db' = Ok p' /\ written_once p' = written_once p) /\
  (forall oid', oid' <> oid -> get oid' db' = get oid' db) /\
  length db' = length db /\
  (forall v tc,
      d !! "outcome" = Some v ->
      stores v tc ->
      get oid db' =
        Ok (mkPrediction (id p) (observation_id p) (observation p)
                         (prediction p) (proba p) tc)) /\
  (forall z,
      d !! "outcome" = Some (PInt z) ->
      ~ (- 2 ^ 63 <= z < 2 ^ 63) ->
      db' = db).
Proof.
  intros Hwf Hin Hoid Hreq Hid db'. subst db'.
  assert (get oid db = Ok p) as Hget by (subst oid; now apply get_row).
  split; [|split; [|split; [|split]]].
  - destruct (update_table_named E req d db oid Hreq Hid)
      as [->|(q & tc & Hq & ->)]; [now exists p|].
    assert (q = p) as -> by congruence.
    exists (set_true_class p tc). split; [|reflexivity].
    now apply get_save_existing.
  - intros oid' Hne.
    destruct (update_table_named E req d db oid Hreq Hid)
      as [->|(q & tc & Hq & ->)]; [reflexivity|].
    rewrite (save_existing_true_class oid db q tc Hwf Hq).
    now apply get_map_other.
  - destruct (update_table_named E req d db oid Hreq Hid)
      as [->|(q & tc & Hq & ->)]; [reflexivity|].
    apply length_save_existing.
  - intros v tc Hout Hst.
    rewrite (update_found E req d db oid v tc p Hreq Hid Hout
               (stores_int_value E v tc Hst) Hget).
    cbn [snd]. now apply get_save_existing.
  - intros z Hout Hz.
    rewrite (update_found_refused E req d db oid p OverflowError Hreq Hid Hget);
      [reflexivity| |discriminate].
    right. exists (PInt z). split; [exact Hout|].
    now apply int_value_out_of_range.
Qed.

(** The theorem for the correction of [obs-1] to 1 on the table that
    scoring it left. *)
Lemma reconcile_changes_true_class_only_witness :
  let db' := snd (update Demo.collaborators Demo.fix1 Demo.db1) in
  (exists p',
      get "obs-1" db' = Ok p' /\
      written_once p' =
        (1, "obs-1", "<body of obs-1>", 0%float, 0.25%float)) /\
  (forall oid', oid' <> "obs-1" -> get oid' db' = get oid' Demo.db1) /\
  length db' = 1%nat /\
  get "obs-1" db' =
    Ok (mkPrediction 1 "obs-1" "<body of obs-1>" 0%float 0.25%float
                     (Some 1)).
Proof.
  pose proof (reconcile_changes_true_class_only Demo.collaborators Demo.fix1
                {[ "observation_id" := PStr "obs-1"; "outcome" := PInt 1 ]}
                Demo.db1 "obs-1"
                (mkPrediction 1 "obs-1" "<body of obs-1>" 0%float 0.25%float
                              None)) as H.
  destruct H as (H1 & H2 & H3 & H4 & _).
  - split; repeat constructor; cbn; tauto.
  - now left.
  - reflexivity.
  - reflexivity.
  - reflexivity.
  - split; [exact H1|]. split; [exact H2|]. split; [exact H3|].
    apply (H4 (PInt 1) (Some 1) eq_refl). constructor. lia.
Defined.

(** C7.  Sending the same correction a second time gives the answer and
    the table of the first time; and a correction, whatever it carries,
    adds no row: the table keeps its length, and an id that had no row
    has none afterwards. *)
Theorem reconcile_idempotent E req db :
  update E req (snd (update E req db)) = update E req db /\
  length (snd (update E req db)) = length db /\
  (forall oid,
      existsb (has_id oid) db = false ->
      existsb (has_id oid) (snd (update E req db)) = false).
Proof.
  destruct (get_json req) as [obs|e] eqn:Hreq;
    [|rewrite (update_unparsed E req db e Hreq); cbn [snd];
      rewrite (update_unparsed E req db e Hreq); auto].
  destruct (update_try E obs db) as [[response db']|e] eqn:Ht.
  - assert (update E req db = (Ok response, db')) as Hrun
        by (unfold update; now rewrite Hreq, Ht).
    rewrite Hrun. cbn [snd].
    apply update_try_ok in Ht as (oid & p & tc & Hget & -> & Hagain).
    split; [|split].
    + unfold update. rewrite Hreq.
      rewrite (Hagain _ (get_save_existing oid db p tc Hget)).
      change (set_true_class (set_true_class p tc) tc)
        with (set_true_class p tc).
      now rewrite save_existing_twice.
    + apply length_save_existing.
    + intros oid'. now apply (save_existing_absent oid).
  - rewrite (update_try_raise_keeps E req obs db e Hreq Ht). auto.
Qed.




(** C9 (as stated, refuted).  A mapping whose only field is a boolean
    Latitude is turned down for the missing [observation_id]; and when
    both coordinates are boolean the message is about Latitude, not about
    Longitude. *)
Lemma boolean_coordinate_other_message :
  Cases.only_latitude !! "Latitude" = Some (PBool true) /\
  verify_data_types (PDict Cases.only_latitude) =
    Ok (true, error_dict (PStr "observation_id column not found")) /\
  Cases.both_boolean !! "Longitude" = Some (PBool false) /\
  verify_data_types (PDict Cases.both_boolean) =
    Ok (true, error_dict (PStr
      "Latitude column has wrong data type. Expected [<class 'float'>, <class 'int'>], got <class 'bool'>")).
Proof. vm_compute. auto. Qed.

(** C9 (amended).  The verifier compares the exact type of a value with
    the listed types.  A mapping with a boolean Latitude or Longitude, or
    with an int under [Part of a policing operation], is always turned
    down; and when the fields that come before that field in the table
    are in order, the message is the wrong-type message for that field,
    with the listed types and the type found. *)
Theorem exact_type_membership d :
  (forall col b,
      col = "Latitude" \/ col = "Longitude" ->
      d !! col = Some (PBool b) ->
      (exists msg,
          verify_data_types (PDict d) = Ok (true, error_dict (PStr msg))) /\
      (forallb (field_ok d) (fields_before col expected_types) = true ->
       verify_data_types (PDict d) =
         Ok (true, error_dict
                     (PStr (wrong_type_msg col [TFloat; TInt] TBool))))) /\
  (forall z,
      d !! "Part of a policing operation" = Some (PInt z) ->
      (exists msg,
          verify_data_types (PDict d) = Ok (true, error_dict (PStr msg))) /\
      (forallb (field_ok d)
               (fields_before "Part of a policing operation" expected_types)
         = true ->
       verify_data_types (PDict d) =
         Ok (true, error_dict
                     (PStr (wrong_type_msg "Part of a policing operation"
                                           [TBool] TInt))))).
Proof.
  assert (forall pre col tys post v,
             expected_types = (pre ++ (col, tys) :: post)%list ->
             d !! col = Some v ->
             type_in (type_of v) tys = false ->
             (exists msg,
                 verify_data_types (PDict d) =
                   Ok (true, error_dict (PStr msg))) /\
             (forallb (field_ok d) pre = true ->
              verify_data_types (PDict d) =
                Ok (true, error_dict
                            (PStr (wrong_type_msg col tys (type_of v))))))
    as Hgen.
  { intros pre col tys post v Hsplit Hv Hty. split.
    - destruct (verify_loop_cases d expected_types)
        as [[Hall _]|(pre' & c & t & post' & msg & _ & _ & _ & _ & Hrun)];
        [|now exists msg].
      rewrite Hsplit, forallb_app in Hall. cbn in Hall.
      apply andb_prop in Hall as [_ [Hf _]%andb_prop].
      unfold field_ok in Hf; cbn in Hf. rewrite Hv in Hf. congruence.
    - intros Hpre. unfold verify_data_types. rewrite Hsplit.
      rewrite verify_loop_skip by exact Hpre.
      now apply verify_loop_step_wrong. }
  split.
  - intros col b [->| ->] Hv.
    + exact (Hgen (fields_before "Latitude" expected_types) "Latitude"
               [TFloat; TInt] _ (PBool b) eq_refl Hv eq_refl).
    + exact (Hgen (fields_before "Longitude" expected_types) "Longitude"
               [TFloat; TInt] _ (PBool b) eq_refl Hv eq_refl).
  - intros z Hv.
    exact (Hgen (fields_before "Part of a policing operation" expected_types)
             "Part of a policing operation" [TBool] _ (PInt z)
             eq_refl Hv eq_refl).
Qed.

(** The theorem for [obs-1] with a boolean Latitude, a boolean Longitude
    and an int flag in turn. *)
Lemma exact_type_membership_witness :
  verify_data_types (PDict Cases.both_boolean) =
    Ok (true, error_dict
                (PStr (wrong_type_msg "Latitude" [TFloat; TInt] TBool))) /\
  verify_data_types (PDict (<[ "Longitude" := PBool false ]> Demo.obs1)) =
    Ok (true, error_dict
                (PStr (wrong_type_msg "Longitude" [TFloat; TInt] TBool))) /\
  verify_data_types (PDict Cases.int_flag) =
    Ok (true, error_dict
                (PStr (wrong_type_msg "Part of a policing operation"
                                      [TBool] TInt))).
Proof.
  split; [|split].
  - apply (proj1 (exact_type_membership Cases.both_boolean)
             "Latitude" true (or_introl eq_refl));
      vm_compute; reflexivity.
  - apply (proj1 (exact_type_membership
                    (<[ "Longitude" := PBool false ]> Demo.obs1))
             "Longitude" false (or_intror eq_refl));
      vm_compute; reflexivity.
  - apply (proj2 (exact_type_membership Cases.int_flag) 1);
      vm_compute; reflexivity.
Defined.

(** C10.  A mapping that holds the twelve fields with allowed kinds passes
    the verifier whatever other fields come with it; the artifact is then
    given the whole mapping, extra fields included, and the row that is
    stored holds the raw body of the request. *)
Theorem extra_fields_ignored E d extras :
  forallb (field_ok d) expected_types = true ->
  verify_data_types (PDict (d ∪ extras)) = Ok (false, all_correct) /\
  (forall req db oid fr pr pd,
      get_json req = Ok (PDict (d ∪ extras)) ->
      d !! "observation_id" = Some (PStr oid) ->
      to_frame E (PDict (d ∪ extras)) = Ok fr ->
      predict_proba E fr = Ok pr ->
      pipeline_predict E fr = Ok pd ->
      existsb (has_id oid) db = false ->
      predict E req db =
        (Ok (PDict {[ "outcome" := PBool (truthy pd) ]}),
         (db ++ [mkPrediction (next_id db) oid (data req) pd pr None])%list)).
Proof.
  intros Hok.
  assert (forallb (field_ok (d ∪ extras)) expected_types = true) as Hok'.
  { apply forallb_forall. intros f Hin.
    apply (proj1 (forallb_forall _ _) Hok) in Hin.
    unfold field_ok in *. destruct (d !! f.1) as [v|] eqn:Hv; [|discriminate].
    now rewrite (lookup_union_Some_l d extras _ _ Hv). }
  split; [now apply verify_loop_all_ok|].
  intros req db oid fr pr pd Hreq Hid Hfr Hpr Hpd Hfresh.
  apply (predict_fresh E req db oid pr pd); [|exact Hfresh].
  apply (valid_scores_as E req (d ∪ extras)); auto.
  unfold score. cbn.
  rewrite (lookup_union_Some_l d extras _ _ Hid). cbn.
  rewrite Hfr. cbn. rewrite Hpr. cbn. now rewrite Hpd.
Qed.

(** The theorem for [obs-1] sent with two fields the table does not
    know. *)
Lemma extra_fields_ignored_witness :
  verify_data_types (PDict (Demo.obs1 ∪ Cases.extras)) =
    Ok (false, all_correct) /\
  predict Demo.collaborators Cases.with_extras [] =
    (Ok (PDict {[ "outcome" := PBool false ]}),
     [ mkPrediction 1 "obs-1" "<body of obs-1 with a comment>"
                    0%float 0.25%float None ]).
Proof.
  pose proof (extra_fields_ignored Demo.collaborators Demo.obs1 Cases.extras
                eq_refl) as [Hv Hp].
  split; [exact Hv|].
  apply (Hp Cases.with_extras [] "obs-1"
            (map (fun c => (Demo.obs1 ∪ Cases.extras) !! c) Demo.columns)
            0.25%float 0%float);
    vm_compute; reflexivity.
Defined.

(** ** Further properties of the verifier *)

Lemma valid_has_str_id d :
  forallb (field_ok d) expected_types = true ->
  exists oid, d !! "observation_id" = Some (PStr oid).
Proof.
  intros Hok. cbn [expected_types forallb] in Hok.
  apply andb_prop in Hok as [Hid _]. unfold field_ok in Hid; cbn in Hid.
  destruct (d !! "observation_id") as [v|]; [|discriminate].
  destruct v; try discriminate. now eexists.
Qed.

Lemma verify_loop_types_only d1 d2 tbl :
  (forall col, List.In col (map fst tbl) ->
               type_of <$> d1 !! col = type_of <$> d2 !! col) ->
  verify_loop tbl (PDict d1) = verify_loop tbl (PDict d2).
Proof.
  induction tbl as [|[col tys] tbl IH]; intros Hsame; [reflexivity|].
  pose proof (Hsame col (or_introl eq_refl)) as Hcol.
  cbn [verify_loop py_contains py_getitem bind].
  destruct (d1 !! col) as [v1|], (d2 !! col) as [v2|]; cbn in Hcol;
    try discriminate.
  - injection Hcol as Hty.
    rewrite !bool_decide_eq_true_2 by eauto. cbn. rewrite Hty.
    destruct (type_in (type_of v2) tys); cbn; [|reflexivity].
    apply IH. intros c Hc. apply Hsame. now right.
  - rewrite !bool_decide_eq_false_2 by (intros [? ?]; discriminate).
    reflexivity.
Qed.

(** X1.  The verifier accepts a payload exactly when it is a dict that
    holds each of the twelve fields with one of its listed kinds, and its
    second component is then the text that all types are correct; any
    other payload is turned down or makes the verifier raise. *)
Theorem verify_accepts_iff data msg :
  verify_data_types data = Ok (false, msg) <->
  msg = all_correct /\
  exists d, data = PDict d /\ forallb (field_ok d) expected_types = true.
Proof.
  split.
  - intros H. destruct (verify_pass_is_dict data msg H) as (d & -> & Hok).
    split; [|now exists d].
    unfold verify_data_types in H.
    rewrite (verify_loop_all_ok d expected_types Hok) in H. congruence.
  - intros (-> & d & -> & Hok). now apply verify_loop_all_ok.
Qed.

(** X3.  The verifier looks at the kinds of the twelve fields and at
    nothing else: two dicts that agree, field by field, on whether the
    field is present and on the type of its value get the same verdict
    and the same message. *)
Theorem verify_types_only d1 d2 :
  (forall col, List.In col (map fst expected_types) ->
               type_of <$> d1 !! col = type_of <$> d2 !! col) ->
  verify_data_types (PDict d1) = verify_data_types (PDict d2).
Proof. apply verify_loop_types_only. Qed.

(** The theorem for [obs-1] and the same observation with an empty
    Gender, a Date that is no date and a Latitude of 1000. *)
Lemma verify_types_only_witness :
  verify_data_types (PDict Demo.obs1) =
    verify_data_types (PDict Cases.other_values).
Proof.
  apply (verify_types_only Demo.obs1 Cases.other_values).
  intros col Hin. cbn in Hin.
  repeat (destruct Hin as [<-|Hin]; [vm_compute; reflexivity|]).
  destruct Hin.
Defined.

(** X13.  No field of the table allows a null, a list or an object: a
    dict that holds one of these under any of the twelve names is turned
    down. *)
Theorem null_or_container_rejected d col v :
  List.In col (map fst expected_types) ->
  d !! col = Some v ->
  List.In (type_of v) never_allowed ->
  exists msg,
    verify_data_types (PDict d) = Ok (true, error_dict (PStr msg)).
Proof.
  intros Hcol Hv Hkind.
  destruct (verify_loop_cases d expected_types)
    as [[Hall _]|(pre & c & t & post & msg & _ & _ & _ & _ & Hrun)];
    [|now exists msg].
  exfalso.
  apply in_map_iff in Hcol as ([c tys] & Hc & Hin). cbn in Hc. subst c.
  pose proof (proj1 (forallb_forall _ _) Hall _ Hin) as Hf.
  unfold field_ok in Hf. cbn in Hf. rewrite Hv in Hf.
  assert (forall f, List.In f expected_types ->
                    forall t, List.In t never_allowed ->
                              type_in t f.2 = false) as Htable.
  { intros f Hf' t Ht. cbn in Hf', Ht.
    repeat (destruct Hf' as [<-|Hf']; [
      repeat (destruct Ht as [<-|Ht]; [reflexivity|]); destruct Ht|]).
    destruct Hf'. }
  pose proof (Htable _ Hin _ Hkind) as Hno. cbn in Hno.
  rewrite Hno in Hf. discriminate.
Qed.

(** The theorem for [obs-1] with a null Gender. *)
Lemma null_or_container_rejected_witness :
  exists msg,
    verify_data_types (PDict Cases.null_gender) =
      Ok (true, error_dict (PStr msg)).
Proof.
  apply (null_or_container_rejected Cases.null_gender "Gender" PNone).
  - cbn. tauto.
  - vm_compute. reflexivity.
  - cbn. tauto.
Defined.

(** ** Further properties of the scoring handler *)

Lemma score_id E d _id pr pd :
  score E (PDict d) = Ok (_id, pr, pd) -> d !! "observation_id" = Some _id.
Proof.
  unfold score. cbn. destruct (d !! "observation_id") as [v|]; [|discriminate].
  cbn. destruct (to_frame E (PDict d)) as [fr|]; [|discriminate].
  cbn. destruct (predict_proba E fr); [|discriminate].
  cbn. destruct (pipeline_predict E fr); [|discriminate].
  cbn. congruence.
Qed.

Lemma find_app_found {A} (f : A -> bool) (l l' : list A) (x : A) :
  find f l = Some x -> find f (l ++ l')%list = Some x.
Proof.
  induction l as [|y l IH]; cbn; [discriminate|].
  destruct (f y); auto.
Qed.

(** X2.  A JSON document that is not an object never reaches the
    artifact or the table: [predict] either raises [TypeError] or answers
    that [observation_id] is not found, and a null, a boolean or a number
    always raises. *)
Theorem predict_non_mapping E req doc db :
  get_json req = Ok doc ->
  (forall d, doc <> PDict d) ->
  (predict E req db = (Raise TypeError, db) \/
   predict E req db =
     (Ok (PDict {[ "error" :=
            error_dict (PStr (not_found_msg "observation_id")) ]}), db)) /\
  (List.In (type_of doc) [TNone; TBool; TInt; TFloat] ->
   predict E req db = (Raise TypeError, db)).
Proof.
  intros Hreq Hnd. unfold predict, verify_data_types, expected_types.
  rewrite Hreq.
  destruct doc as [| | | | s | l | d]; cbn.
  - split; auto.
  - split; auto.
  - split; auto.
  - split; auto.
  - split; [|intros [H|[H|[H|[H|[]]]]]; discriminate].
    destruct (bool_decide _); cbn; auto.
  - split; [|intros [H|[H|[H|[H|[]]]]]; discriminate].
    destruct (existsb _ l); cbn; auto.
  - now destruct (Hnd d).
Qed.

(** The theorem for the JSON document [5]. *)
Lemma predict_non_mapping_witness :
  (predict Demo.collaborators Cases.five Demo.db1 =
     (Raise TypeError, Demo.db1) \/
   predict Demo.collaborators Cases.five Demo.db1 =
     (Ok (PDict {[ "error" :=
            error_dict (PStr (not_found_msg "observation_id")) ]}),
      Demo.db1)) /\
  (List.In TInt [TNone; TBool; TInt; TFloat] ->
   predict Demo.collaborators Cases.five Demo.db1 =
     (Raise TypeError, Demo.db1)).
Proof.
  apply (predict_non_mapping Demo.collaborators Cases.five (PInt 5) Demo.db1).
  - reflexivity.
  - intros d. discriminate.
Defined.

(** X4.  [predict] writes at most one row, and only when it answers with
    a bare outcome.  Either the table is left exactly as it was (this is
    so whenever the handler raises, turns the payload down or finds the
    id already stored), or the request carries a dict with a str
    [observation_id] that had no row, the answer is the dict with the one
    entry [outcome], and the table is the old one followed by one row for
    that id, holding the raw body and no [true_class]. *)
Theorem predict_writes_at_most_one_row E req db :
  snd (predict E req db) = db \/
  exists d oid pr pd,
    get_json req = Ok (PDict d) /\
    d !! "observation_id" = Some (PStr oid) /\
    existsb (has_id oid) db = false /\
    predict E req db =
      (Ok (PDict {[ "outcome" := PBool (negb (PrimFloat.eqb pd 0%float)) ]}),
       (db ++ [mkPrediction (next_id db) oid (data req) pd pr None])%list).
Proof.
  destruct (get_json req) as [obs_dict|e] eqn:Hreq;
    [|left; now rewrite (predict_unparsed E req db e)].
  destruct (verify_data_types obs_dict) as [[[] msg]|e] eqn:Hv.
  - left. now rewrite (predict_rejected E req obs_dict db msg).
  - destruct (verify_pass_is_dict obs_dict msg Hv) as (d & -> & Hok).
    destruct (score E (PDict d)) as [[[_id pr] pd]|e] eqn:Hs.
    + destruct (valid_has_str_id d Hok) as (oid & Hid).
      pose proof (score_id E d _id pr pd Hs) as Hid'.
      assert (_id = PStr oid) as -> by congruence.
      pose proof (valid_scores_as E req d oid pr pd Hreq Hok Hs) as Hsc.
      destruct (existsb (has_id oid) db) eqn:Hex.
      * left. now rewrite (predict_duplicate E req db oid pr pd).
      * right. exists d, oid, pr, pd.
        split; [reflexivity|]. split; [exact Hid|]. split; [exact Hex|].
        now apply predict_fresh.
    + left. now rewrite (predict_score_raises E req (PDict d) db msg e).
  - left. unfold predict. now rewrite Hreq, Hv.
Qed.

(** X5.  The outcome that [predict] reports does not depend on what is
    stored: on any two tables the answers to the same request carry the
    same [outcome] entry, or both carry none. *)
Theorem predict_outcome_ignores_table E req db db' :
  outcome_of (fst (predict E req db)) = outcome_of (fst (predict E req db')).
Proof.
  unfold predict.
  destruct (get_json req) as [obs_dict|e]; [|reflexivity].
  destruct (verify_data_types obs_dict) as [[[] msg]|e];
    [reflexivity| |reflexivity].
  destruct (score E obs_dict) as [[[_id pr] pd]|e]; [|reflexivity].
  unfold save_prediction.
  destruct (text_value E _id) as [[oid|]|e]; cbn [bind].
  - unfold save_new.
    destruct (existsb (has_id oid) db), (existsb (has_id oid) db');
      reflexivity.
  - reflexivity.
  - destruct e; reflexivity.
Qed.

(** ** Further properties of the reconciliation handler *)

(** X6.  The exceptions that can leave [update].  When the handler
    raises, either [request.get_json()] raised that exception before the
    [try], or the exception is [KeyError] for the key [id], raised in the
    [DoesNotExist] branch for a request object that has no such key; in
    both cases the table is left as it was. *)
Theorem update_exceptions E req db e :
  fst (update E req db) = Raise e ->
  (get_json req = Raise e \/
   (e = KeyError "id" /\
    exists d, get_json req = Ok (PDict d) /\ d !! "id" = None)) /\
  snd (update E req db) = db.
Proof.
  unfold update.
  destruct (get_json req) as [obs|e0] eqn:Hreq; cbn [fst snd];
    [|intros [= ->]; auto].
  destruct (update_try E obs db) as [[response db']|e0] eqn:Ht;
    cbn [fst snd]; [discriminate|].
  assert (e0 = DoesNotExist -> exists d, obs = PDict d) as Hdict.
  { intros ->. unfold update_try in Ht.
    destruct obs; try discriminate. now eexists. }
  destruct e0; cbn [fst snd]; try discriminate.
  destruct (Hdict eq_refl) as (d & ->). cbn.
  destruct (d !! "id") as [shown|] eqn:Hshown; cbn [fst snd];
    [discriminate|].
  intros [= <-]. split; [|reflexivity].
  right. split; [reflexivity|]. now exists d.
Qed.

(** The theorem for a body that is not JSON and for a correction of an id
    that has no row. *)
Lemma update_exceptions_witness :
  ((get_json Cases.not_json = Raise BadRequest \/
    (BadRequest = KeyError "id" /\
     exists d, get_json Cases.not_json = Ok (PDict d) /\ d !! "id" = None)) /\
   snd (update Demo.collaborators Cases.not_json Demo.db1) = Demo.db1) /\
  ((get_json Demo.fix1 = Raise (KeyError "id") \/
    (KeyError "id" = KeyError "id" /\
     exists d, get_json Demo.fix1 = Ok (PDict d) /\ d !! "id" = None)) /\
   snd (update Demo.collaborators Demo.fix1 []) = []).
Proof.
  split.
  - exact (update_exceptions Demo.collaborators Cases.not_json Demo.db1
             BadRequest eq_refl).
  - exact (update_exceptions Demo.collaborators Demo.fix1 []
             (KeyError "id") eq_refl).
Defined.

(** X7.  Requests that [update] answers with the generic message, leaving
    the table alone: a JSON document that is not an object, an object
    without [observation_id], and an object that names a stored id but
    carries no [outcome]. *)
Theorem update_malformed_requests E req db :
  (forall doc,
      get_json req = Ok doc ->
      (forall d, doc <> PDict d) ->
      update E req db = (Ok (PDict {[ "error" := PStr malformed_msg ]}), db)) /\
  (forall d,
      get_json req = Ok (PDict d) ->
      d !! "observation_id" = None ->
      update E req db = (Ok (PDict {[ "error" := PStr malformed_msg ]}), db)) /\
  (forall d oid p,
      get_json req = Ok (PDict d) ->
      d !! "observation_id" = Some (PStr oid) ->
      get oid db = Ok p ->
      d !! "outcome" = None ->
      update E req db = (Ok (PDict {[ "error" := PStr malformed_msg ]}), db)).
Proof.
  split; [|split].
  - intros doc Hreq Hnd. unfold update, update_try. rewrite Hreq.
    destruct doc as [| | | | s | l | d]; try reflexivity.
    now destruct (Hnd d).
  - intros d Hreq Hid. unfold update, update_try. rewrite Hreq. cbn.
    now rewrite Hid.
  - intros d oid p Hreq Hid Hget Hout. unfold update, update_try.
    rewrite Hreq. cbn. rewrite Hid. cbn. rewrite Hget. cbn.
    now rewrite Hout.
Qed.

(** Each part of the theorem on a request of its own. *)
Lemma update_malformed_requests_witness :
  update Demo.collaborators Cases.five Demo.db1 =
    (Ok (PDict {[ "error" := PStr malformed_msg ]}), Demo.db1) /\
  update Demo.collaborators Cases.fix_no_id Demo.db1 =
    (Ok (PDict {[ "error" := PStr malformed_msg ]}), Demo.db1) /\
  update Demo.collaborators Cases.fix_no_outcome Demo.db1 =
    (Ok (PDict {[ "error" := PStr malformed_msg ]}), Demo.db1).
Proof.
  split; [|split].
  - apply (proj1 (update_malformed_requests
                    Demo.collaborators Cases.five Demo.db1) (PInt 5));
      [reflexivity|]. intros d. discriminate.
  - apply (proj1 (proj2 (update_malformed_requests
                           Demo.collaborators Cases.fix_no_id Demo.db1))
             {[ "outcome" := PInt 1 ]}); reflexivity.
  - apply (proj2 (proj2 (update_malformed_requests
                           Demo.collaborators Cases.fix_no_outcome Demo.db1))
             {[ "observation_id" := PStr "obs-1" ]} "obs-1"
             (mkPrediction 1 "obs-1" "<body of obs-1>" 0%float 0.25%float
                           None)); reflexivity.
Defined.

(** X8.  The last correction wins, and nothing is kept of an earlier
    one: correcting a stored id first with one outcome and then with
    another gives the answer and the table that the second correction
    alone gives. *)
Theorem last_correction_wins E req1 req2 d1 d2 db oid v1 v2 tc1 tc2 p :
  get_json req1 = Ok (PDict d1) ->
  d1 !! "observation_id" = Some (PStr oid) ->
  d1 !! "outcome" = Some v1 ->
  int_value E v1 = Ok tc1 ->
  get_json req2 = Ok (PDict d2) ->
  d2 !! "observation_id" = Some (PStr oid) ->
  d2 !! "outcome" = Some v2 ->
  int_value E v2 = Ok tc2 ->
  get oid db = Ok p ->
  update E req2 (snd (update E req1 db)) = update E req2 db.
Proof.
  intros Hreq1 Hid1 Hout1 Htc1 Hreq2 Hid2 Hout2 Htc2 Hget.
  rewrite (update_found E req1 d1 db oid v1 tc1 p) by assumption.
  cbn [snd].
  rewrite (update_found E req2 d2 db oid v2 tc2 p) by assumption.
  rewrite (update_found E req2 d2 _ oid v2 tc2 (set_true_class p tc1))
    by (try assumption; now apply get_save_existing).
  f_equal. unfold save_existing. rewrite map_map. apply map_ext. intros r.
  cbn. destruct (bool_decide (id r = id p)) eqn:Hk; cbn.
  - now rewrite bool_decide_eq_true_2.
  - now rewrite Hk.
Qed.

(** The theorem for [obs-1] corrected to 1 and then to 0. *)
Lemma last_correction_wins_witness :
  update Demo.collaborators Cases.fix1_zero
         (snd (update Demo.collaborators Demo.fix1 Demo.db1)) =
    update Demo.collaborators Cases.fix1_zero Demo.db1.
Proof.
  apply (last_correction_wins Demo.collaborators Demo.fix1 Cases.fix1_zero
           {[ "observation_id" := PStr "obs-1"; "outcome" := PInt 1 ]}
           {[ "observation_id" := PStr "obs-1"; "outcome" := PInt 0 ]}
           Demo.db1 "obs-1" (PInt 1) (PInt 0) (Some 1) (Some 0)
           (mkPrediction 1 "obs-1" "<body of obs-1>" 0%float 0.25%float None));
    reflexivity.
Defined.

Lemma set_true_class_commute oid1 oid2 tc1 tc2 (db : Database) :
  oid1 <> oid2 ->
  map (fun r => if has_id oid2 r then set_true_class r tc2 else r)
      (map (fun r => if has_id oid1 r then set_true_class r tc1 else r) db) =
  map (fun r => if has_id oid1 r then set_true_class r tc1 else r)
      (map (fun r => if has_id oid2 r then set_true_class r tc2 else r) db).
Proof.
  intros Hne. rewrite !map_map. apply map_ext. intros r.
  destruct (has_id oid1 r) eqn:H1, (has_id oid2 r) eqn:H2;
    rewrite ?has_id_set_true_class, ?H1, ?H2; try reflexivity.
  apply has_id_true in H1, H2. congruence.
Qed.

(** X9.  Corrections of two different stored ids do not interfere: on a
    table with unique keys, the table after both is the same whichever
    comes first. *)
Theorem corrections_commute
    E req1 req2 d1 d2 db oid1 oid2 v1 v2 tc1 tc2 p1 p2 :
  wf db ->
  oid1 <> oid2 ->
  get_json req1 = Ok (PDict d1) ->
  d1 !! "observation_id" = Some (PStr oid1) ->
  d1 !! "outcome" = Some v1 ->
  int_value E v1 = Ok tc1 ->
  get oid1 db = Ok p1 ->
  get_json req2 = Ok (PDict d2) ->
  d2 !! "observation_id" = Some (PStr oid2) ->
  d2 !! "outcome" = Some v2 ->
  int_value E v2 = Ok tc2 ->
  get oid2 db = Ok p2 ->
  snd (update E req2 (snd (update E req1 db))) =
    snd (update E req1 (snd (update E req2 db))).
Proof.
  intros Hwf Hne Hreq1 Hid1 Hout1 Htc1 Hget1 Hreq2 Hid2 Hout2 Htc2 Hget2.
  rewrite (update_found E req1 d1 db oid1 v1 tc1 p1) by assumption.
  rewrite (update_found E req2 d2 db oid2 v2 tc2 p2) by assumption.
  cbn [snd].
  pose proof (wf_save_existing oid1 db p1 tc1 Hwf Hget1) as Hwf1.
  pose proof (wf_save_existing oid2 db p2 tc2 Hwf Hget2) as Hwf2.
  assert (get oid2 (save_existing (set_true_class p1 tc1) db) = Ok p2) as Hg2.
  { rewrite (save_existing_true_class oid1 db p1 tc1 Hwf Hget1).
    rewrite get_map_other by congruence. exact Hget2. }
  assert (get oid1 (save_existing (set_true_class p2 tc2) db) = Ok p1) as Hg1.
  { rewrite (save_existing_true_class oid2 db p2 tc2 Hwf Hget2).
    rewrite get_map_other by congruence. exact Hget1. }
  rewrite (update_found E req2 d2 _ oid2 v2 tc2 p2) by assumption.
  rewrite (update_found E req1 d1 _ oid1 v1 tc1 p1) by assumption.
  cbn [snd].
  rewrite (save_existing_true_class oid2 _ p2 tc2 Hwf1 Hg2).
  rewrite (save_existing_true_class oid1 _ p1 tc1 Hwf2 Hg1).
  rewrite (save_existing_true_class oid1 db p1 tc1 Hwf Hget1).
  rewrite (save_existing_true_class oid2 db p2 tc2 Hwf Hget2).
  now apply set_true_class_commute.
Qed.

(** The theorem for the corrections of [obs-1] and [obs-2] on the table
    that holds both. *)
Lemma corrections_commute_witness :
  snd (update Demo.collaborators Cases.fix2
         (snd (update Demo.collaborators Demo.fix1 Cases.db2))) =
    snd (update Demo.collaborators Demo.fix1
           (snd (update Demo.collaborators Cases.fix2 Cases.db2))).
Proof.
  apply (corrections_commute Demo.collaborators Demo.fix1 Cases.fix2
           {[ "observation_id" := PStr "obs-1"; "outcome" := PInt 1 ]}
           {[ "observation_id" := PStr "obs-2"; "outcome" := PInt 1 ]}
           Cases.db2 "obs-1" "obs-2" (PInt 1) (PInt 1) (Some 1) (Some 1)
           (mkPrediction 1 "obs-1" "<body of obs-1>" 0%float 0.25%float None)
           (mkPrediction 2 "obs-2" "<body of obs-2>" 1%float 0.75%float None));
    try reflexivity.
  - split; repeat constructor; cbn; intuition discriminate.
  - discriminate.
Defined.

Lemma save_existing_last (db : Database) row row' :
  id row' = id row ->
  (forall r, List.In r db -> id r <> id row) ->
  save_existing row' (db ++ [row])%list = (db ++ [row'])%list.
Proof.
  intros Hid Hfresh. unfold save_existing. rewrite map_app. cbn.
  rewrite Hid, bool_decide_eq_true_2 by reflexivity. f_equal.
  rewrite <- (map_id db) at 2. apply map_ext_in. intros r Hr.
  rewrite bool_decide_eq_false_2; [reflexivity|]. now apply Hfresh.
Qed.

(** X10.  Scoring then correcting.  After a valid observation with an id
    the table does not know has been scored, a correction of that id with
    an int outcome that fits in 64 bits answers with the id, the outcome
    and, as [predicted_outcome], the label whose truth value the scoring
    call reported; the table is the old one followed by the row of the
    observation, now with that outcome as [true_class]. *)
Theorem score_then_reconcile E req corr d d' db oid fr pr pd z :
  get_json req = Ok (PDict d) ->
  forallb (field_ok d) expected_types = true ->
  d !! "observation_id" = Some (PStr oid) ->
  to_frame E (PDict d) = Ok fr ->
  predict_proba E fr = Ok pr ->
  pipeline_predict E fr = Ok pd ->
  existsb (has_id oid) db = false ->
  get_json corr = Ok (PDict d') ->
  d' !! "observation_id" = Some (PStr oid) ->
  d' !! "outcome" = Some (PInt z) ->
  - 2 ^ 63 <= z < 2 ^ 63 ->
  fst (predict E req db) =
    Ok (PDict {[ "outcome" := PBool (negb (PrimFloat.eqb pd 0%float)) ]}) /\
  update E corr (snd (predict E req db)) =
    (Ok (PDict (<[ "observation_id" := PStr oid ]>
               (<[ "outcome" := PInt z ]>
                 {[ "predicted_outcome" := PFloat pd ]}))),
     (db ++ [mkPrediction (next_id db) oid (data req) pd pr (Some z)])%list).
Proof.
  intros Hreq Hok Hid Hfr Hpr Hpd Hfresh Hfix Hid' Hout Hz.
  pose proof (valid_scores_as E req d oid pr pd Hreq Hok
                (score_returns E d _ fr pr pd Hid Hfr Hpr Hpd)) as Hsc.
  rewrite (predict_fresh E req db oid pr pd Hsc Hfresh). cbn [fst snd].
  split; [reflexivity|].
  set (row := mkPrediction (next_id db) oid (data req) pd pr None).
  assert (get oid (db ++ [row])%list = Ok row) as Hget.
  { unfold get. rewrite (find_snoc (has_id oid) db row); auto.
    - now apply existsb_find_none.
    - now apply has_id_true. }
  rewrite (update_found E corr d' _ oid (PInt z) (Some z) row Hfix Hid' Hout
             (stores_int_value E _ _ (stores_int z Hz)) Hget).
  f_equal. apply save_existing_last; [reflexivity|].
  intros r Hr. apply next_id_above in Hr. cbn. lia.
Qed.

(** The theorem for [obs-1] scored on the empty table and corrected
    to 1. *)
Lemma score_then_reconcile_witness :
  fst (predict Demo.collaborators Demo.req1 []) =
    Ok (PDict {[ "outcome" := PBool false ]}) /\
  update Demo.collaborators Demo.fix1
         (snd (predict Demo.collaborators Demo.req1 [])) =
    (Ok (PDict (<[ "observation_id" := PStr "obs-1" ]>
               (<[ "outcome" := PInt 1 ]>
                 {[ "predicted_outcome" := PFloat 0%float ]}))),
     [ mkPrediction 1 "obs-1" "<body of obs-1>" 0%float 0.25%float (Some 1) ]).
Proof.
  apply (score_then_reconcile Demo.collaborators Demo.req1 Demo.fix1
           Demo.obs1
           {[ "observation_id" := PStr "obs-1"; "outcome" := PInt 1 ]}
           [] "obs-1" (map (fun c => Demo.obs1 !! c) Demo.columns)
           0.25%float 0%float 1);
    try (vm_compute; reflexivity).
  lia.
Defined.

(** ** Properties of the application over any sequence of calls *)

Lemma wf_serve E c db : wf db -> wf (snd (serve E c db)).
Proof.
  destruct c; cbn; [apply wf_predict|apply wf_update|auto].
Qed.

Lemma wf_run E calls db : wf db -> wf (run E calls db).
Proof.
  revert db. induction calls as [|c calls IH]; intros db Hwf; [exact Hwf|].
  cbn. apply IH. now apply wf_serve.
Qed.

Lemma wf_count_id oid db : wf db -> (count_id oid db <= 1)%nat.
Proof.
  intros [_ Hnd]. unfold count_id.
  induction db as [|r db IH]; cbn; [lia|].
  cbn in Hnd. apply List.NoDup_cons_iff in Hnd as [Hr Hnd].
  destruct (has_id oid r) eqn:Hh; [|auto].
  apply has_id_true in Hh. cbn.
  enough (List.filter (has_id oid) db = []) as -> by (cbn; lia).
  destruct (List.filter (has_id oid) db) as [|q l] eqn:Hf; [reflexivity|].
  exfalso. apply Hr.
  assert (List.In q (List.filter (has_id oid) db)) as Hq
      by (rewrite Hf; now left).
  apply filter_In in Hq as [Hin Hq]. apply has_id_true in Hq.
  rewrite Hh, <- Hq. now apply in_map.
Qed.

(** X11.  However the three routes are called, starting from the empty
    table, no [observation_id] ever has more than one row. *)
Theorem one_row_per_id E calls oid :
  (count_id oid (run E calls []) <= 1)%nat.
Proof. apply wf_count_id, wf_run, wf_nil. Qed.

Lemma get_serve_keeps E c db oid p :
  wf db ->
  get oid db = Ok p ->
  exists p',
    get oid (snd (serve E c db)) = Ok p' /\ written_once p' = written_once p.
Proof.
  intros Hwf Hget. destruct c as [req|req|]; cbn [serve snd].
  - exists p. split; [|reflexivity].
    destruct (predict_table E req db) as [->|(row & _ & ->)]; [exact Hget|].
    unfold get in *.
    destruct (find (has_id oid) db) as [q|] eqn:Hf; [|discriminate].
    now rewrite (find_app_found _ _ _ _ Hf).
  - destruct (update_table E req db) as [->|(oid' & q & tc & Hq & ->)];
      [now exists p|].
    destruct (decide (oid = oid')) as [<-|Hne].
    + assert (q = p) as -> by congruence.
      exists (set_true_class p tc). split; [|reflexivity].
      now apply get_save_existing.
    + exists p. split; [|reflexivity].
      rewrite (save_existing_true_class oid' db q tc Hwf Hq).
      now rewrite get_map_other.
  - now exists p.
Qed.

(** X12.  A stored prediction is never lost and never rescored: on a
    table with unique keys, whatever calls follow, the id still has a row
    and its primary key, id, raw observation, label and probability are
    the ones it was stored with. *)
Theorem stored_prediction_persists E calls db oid p :
  wf db ->
  get oid db = Ok p ->
  exists p',
    get oid (run E calls db) = Ok p' /\ written_once p' = written_once p.
Proof.
  revert db p. induction calls as [|c calls IH]; intros db p Hwf Hget.
  - now exists p.
  - cbn [run].
    destruct (get_serve_keeps E c db oid p Hwf Hget) as (q & Hq & Hsame).
    destruct (IH _ q (wf_serve E c db Hwf) Hq) as (p' & Hp' & Hsame').
    exists p'. split; [exact Hp'|congruence].
Qed.

(** The theorem for [obs-1] while [obs-1] is sent again, corrected, and
    [obs-2] is scored. *)
Lemma stored_prediction_persists_witness :
  exists p',
    get "obs-1"
        (run Demo.collaborators
             [ ShouldSearch Demo.req1'; SearchResult Demo.fix1;
               ListDbContents; ShouldSearch Cases.req2 ]
             Demo.db1) = Ok p' /\
    written_once p' =
      (1, "obs-1", "<body of obs-1>", 0%float, 0.25%float).
Proof.
  apply (stored_prediction_persists Demo.collaborators
           [ ShouldSearch Demo.req1'; SearchResult Demo.fix1;
             ListDbContents; ShouldSearch Cases.req2 ]
           Demo.db1 "obs-1"
           (mkPrediction 1 "obs-1" "<body of obs-1>" 0%float 0.25%float None)).
  - split; repeat constructor; cbn; tauto.
  - reflexivity.
Defined.

(** X16.  [true_class] is set by corrections only: after any sequence of
    calls that holds no call to [/search_result], starting from the empty
    table, every row has a null [true_class]. *)
Theorem unreconciled_until_corrected E calls :
  (forall req, ~ List.In (SearchResult req) calls) ->
  Forall (fun p => true_class p = None) (run E calls []).
Proof.
  assert (forall db,
             (forall req, ~ List.In (SearchResult req) calls) ->
             Forall (fun p => true_class p = None) db ->
             Forall (fun p => true_class p = None) (run E calls db)) as Hgen.
  { induction calls as [|c calls IH]; intros db Hno Hdb; [exact Hdb|].
    cbn [run]. apply IH.
    - intros req Hin. apply (Hno req). now right.
    - destruct c as [req|req|]; cbn [serve snd].
      + destruct (predict_table E req db) as [->|(row & Hrow & ->)];
          [exact Hdb|].
        apply Forall_app. split; [exact Hdb|]. now constructor.
      + exfalso. apply (Hno req). now left.
      + exact Hdb. }
  intros Hno. apply Hgen; [exact Hno|constructor].
Qed.

(** The theorem for [obs-1] scored twice, a listing, and [obs-2]
    scored. *)
Lemma unreconciled_until_corrected_witness :
  Forall (fun p => true_class p = None)
         (run Demo.collaborators
              [ ShouldSearch Demo.req1; ShouldSearch Demo.req1';
                ListDbContents; ShouldSearch Cases.req2 ] []).
Proof.
  apply (unreconciled_until_corrected Demo.collaborators).
  intros req Hin. cbn in Hin.
  repeat (destruct Hin as [Hin|Hin]; [discriminate|]). destruct Hin.
Defined.

(** ** Properties of the listing *)

Lemma model_to_dict_inj p q : model_to_dict p = model_to_dict q -> p = q.
Proof.
  intros H.
  pose proof (f_equal (entry "id") H) as H1.
  pose proof (f_equal (entry "observation_id") H) as H2.
  pose proof (f_equal (entry "observation") H) as H3.
  pose proof (f_equal (entry "prediction") H) as H4.
  pose proof (f_equal (entry "proba") H) as H5.
  pose proof (f_equal (entry "true_class") H) as H6.
  clear H. vm_compute in H1, H2, H3, H4, H5, H6.
  destruct p as [i1 o1 b1 d1 r1 t1], q as [i2 o2 b2 d2 r2 t2].
  injection H1 as ->. injection H2 as ->. injection H3 as ->.
  injection H4 as ->. injection H5 as ->.
  destruct t1, t2; try discriminate; congruence.
Qed.

Lemma map_inj_eq {A B} (f : A -> B) (l l' : list A) :
  (forall x y, f x = f y -> x = y) -> map f l = map f l' -> l = l'.
Proof.
  intros Hinj. revert l'.
  induction l as [|x l IH]; intros [|y l'] H; try discriminate;
    [reflexivity|].
  cbn [map] in H. injection H as Hxy Hrest.
  f_equal; auto.
Qed.

Lemma PList_inj l l' : PList l = PList l' -> l = l'.
Proof. now intros [= H]. Qed.

(** X15.  The listing loses nothing: it has one entry per row, and two
    tables with the same listing are the same table, row by row and
    column by column, the primary key included. *)
Theorem listing_faithful db1 db2 :
  list_db_contents db1 = list_db_contents db2 -> db1 = db2.
Proof.
  unfold list_db_contents, select. intros H%PList_inj.
  apply (map_inj_eq model_to_dict); [apply model_to_dict_inj|exact H].
Qed.

(** The theorem for the table that holds [obs-1] and [obs-2]. *)
Lemma listing_faithful_witness :
  Cases.db2 =
    run Demo.collaborators
        [ ShouldSearch Demo.req1; ShouldSearch Cases.req2 ] [].
Proof.
  apply (listing_faithful Cases.db2). vm_compute. reflexivity.
Defined.

(** X14.  Scoring shows in the listing as one more entry at the end:
    after a valid observation with an id the table does not know has been
    scored, the listing is the old listing followed by the entry of the
    new row, with a null [true_class]. *)
Theorem listing_after_fresh_score E req d db oid pr pd :
  get_json req = Ok (PDict d) ->
  forallb (field_ok d) expected_types = true ->
  score E (PDict d) = Ok (PStr oid, pr, pd) ->
  existsb (has_id oid) db = false ->
  list_db_contents (snd (predict E req db)) =
    PList (map model_to_dict db ++
           [ PDict (<[ "id" := PInt (next_id db) ]>
                   (<[ "observation_id" := PStr oid ]>
                   (<[ "observation" := PStr (data req) ]>
                   (<[ "prediction" := PFloat pd ]>
                   (<[ "proba" := PFloat pr ]>
                     {[ "true_class" := PNone ]}))))) ])%list.
Proof.
  intros Hreq Hok Hs Hfresh.
  pose proof (valid_scores_as E req d oid pr pd Hreq Hok Hs) as Hsc.
  rewrite (predict_fresh E req db oid pr pd Hsc Hfresh). cbn [snd].
  unfold list_db_contents, select. now rewrite map_app.
Qed.

(** The theorem for [obs-2] scored on the table that holds [obs-1]. *)
Lemma listing_after_fresh_score_witness :
  list_db_contents (snd (predict Demo.collaborators Cases.req2 Demo.db1)) =
    list_db_contents Cases.db2.
Proof.
  apply (listing_after_fresh_score Demo.collaborators Cases.req2 Cases.obs2
           Demo.db1 "obs-2" 0.75%float 1%float);
    vm_compute; reflexivity.
Defined.
